(** * The Matrix faucet bot ([src/bot/index.ts]): command dispatch

    A shallow embedding of the bot's [Room.timeline] handler and of the
    start-up parsing of the ignore list, together with the ECMAScript
    primitives the handler calls (string splitting and trimming, numeric
    coercion, IEEE-754 binary64 division, number-to-string conversion).

    Conventions.
    - A JavaScript string is a [string]; each [ascii] stands for one code
      unit below 256.
    - A JavaScript number is a [spec_float] of the standard library, used at
      precision 53 and maximal exponent 1024 (binary64, round to nearest,
      ties to even).
    - Effects (logging, HTTP requests, chat messages) are the nodes of a
      finite tree [proc]; the answers of the backend and of the chat server
      are supplied by a [world], and [run] yields the list of observable
      events in program order. *)

From Stdlib Require Import ZArith List String Ascii Bool Lia SpecFloat.
From Stdlib Require Import DecimalString.
From Stdlib Require Import NArithRing.
From Stdlib Require Decimal DecimalPos DecimalN.
Import ListNotations.

Local Open Scope string_scope.
Local Open Scope list_scope.

(** ** ECMAScript strings *)

Module JsString.

(** [s.split(sep)] for a one-character separator, the only kind of separator
    the bot uses ([' '], [','] and [':']).  The result is never empty. *)
Fixpoint split (sep : ascii) (s : string) : list string :=
  match s with
  | EmptyString => [EmptyString]
  | String c r =>
      if Ascii.eqb c sep then EmptyString :: split sep r
      else match split sep r with
           | h :: t => String c h :: t
           | [] => [String c EmptyString]
           end
  end.

(** [s.startsWith(p)] *)
Definition startsWith (s p : string) : bool := String.prefix p s.

(** [s.endsWith(p)] *)
Definition endsWith (s p : string) : bool :=
  let n := String.length s in
  let m := String.length p in
  (m <=? n)%nat && String.eqb (String.substring (n - m) m s) p.

(** Removes the first [n] characters. *)
Fixpoint drop (n : nat) (s : string) : string :=
  match n, s with
  | O, _ => s
  | S _, EmptyString => EmptyString
  | S n', String _ r => drop n' r
  end.

(** [s.replace(pat, rep)] with a string pattern: only the first occurrence
    is replaced.  [rep] is taken literally (the bot passes ['']). *)
Fixpoint replace (pat rep s : string) : string :=
  if String.prefix pat s then rep ++ drop (String.length pat) s
  else match s with
       | EmptyString => EmptyString
       | String c r => String c (replace pat rep r)
       end.

(** White space and line terminators among the code units below 256:
    TAB, LF, VT, FF, CR, SP and NBSP. *)
Definition isWhiteSpace (c : ascii) : bool :=
  let n := nat_of_ascii c in
  ((9 <=? n) && (n <=? 13) || (n =? 32) || (n =? 160))%nat.

Fixpoint trimStart (s : string) : string :=
  match s with
  | EmptyString => EmptyString
  | String c r => if isWhiteSpace c then trimStart r else s
  end.

Fixpoint trimEnd (s : string) : string :=
  match s with
  | EmptyString => EmptyString
  | String c r =>
      match trimEnd r with
      | EmptyString => if isWhiteSpace c then EmptyString
                       else String c EmptyString
      | r' => String c r'
      end
  end.

(** [s.trim()] *)
Definition trim (s : string) : string := trimEnd (trimStart s).

(** Truthiness of a string: every string but [''] is truthy. *)
Definition truthy (s : string) : bool :=
  match s with EmptyString => false | _ => true end.

(** [arr.includes(x)] on an array of strings. *)
Definition includes (arr : list string) (x : string) : bool :=
  existsb (String.eqb x) arr.

(** [c] does not occur in [s]. *)
Fixpoint lacks (c : ascii) (s : string) : bool :=
  match s with
  | EmptyString => true
  | String d r => negb (Ascii.eqb d c) && lacks c r
  end.

End JsString.

(** ** ECMAScript numbers *)

Module JsNumber.

Local Open Scope Z_scope.

Definition prec : Z := 53.
Definition emax : Z := 1024.

(** The Number type: IEEE-754 binary64 values. *)
Definition number : Type := spec_float.

Definition NaN : number := S754_nan.
Definition Infinity : number := S754_infinity false.

(** Equality of representations. *)
Definition same (x y : number) : bool :=
  match x, y with
  | S754_zero a, S754_zero b => Bool.eqb a b
  | S754_infinity a, S754_infinity b => Bool.eqb a b
  | S754_nan, S754_nan => true
  | S754_finite a m e, S754_finite b m' e' =>
      Bool.eqb a b && Pos.eqb m m' && Z.eqb e e'
  | _, _ => false
  end.

(** [x / y] *)
Definition div (x y : number) : number := SFdiv prec emax x y.

(** The binary64 value nearest to [(-1)^neg * p / q]. *)
Definition ofRatio (neg : bool) (p q : positive) : number :=
  SFdiv prec emax (S754_finite neg p 0) (S754_finite false q 0).

(** The binary64 value nearest to [(-1)^neg * m * 10^e], for [0 <= m].
    Exponents far outside the binary64 range are brought back to its edge
    first; the result is the same infinity or zero. *)
Definition ofDecimal (neg : bool) (m e : Z) : number :=
  match m with
  | Zpos p =>
      let e := Z.max (Z.min e 400) (- (400 + Z.log2 m + 1)) in
      if 0 <=? e then ofRatio neg (p * Z.to_pos (10 ^ e)) 1
      else ofRatio neg p (Z.to_pos (10 ^ (- e)))
  | _ => S754_zero neg
  end.

(** [10 ** d] for a natural number [d]: the binary64 value nearest to the
    power, which is the power itself up to [10 ** 22] (beyond that the
    language leaves the last bit of the result to the implementation). *)
Definition pow10 (d : N) : number := ofDecimal false 1 (Z.of_N d).

(** *** StringToNumber *)

Definition digitVal (radix : Z) (c : ascii) : option Z :=
  let n := Z.of_nat (nat_of_ascii c) in
  let v := if (48 <=? n) && (n <=? 57) then n - 48
           else if (97 <=? n) && (n <=? 102) then n - 87
           else if (65 <=? n) && (n <=? 70) then n - 55
           else radix in
  if v <? radix then Some v else None.

(** The longest prefix of decimal digits: its value (after [acc]), the
    number of digits read (after [cnt]) and the rest of the string. *)
Fixpoint decimalDigits (s : string) (acc cnt : Z) : Z * Z * string :=
  match s with
  | EmptyString => (acc, cnt, s)
  | String c r =>
      match digitVal 10 c with
      | Some d => decimalDigits r (10 * acc + d) (cnt + 1)
      | None => (acc, cnt, s)
      end
  end.

(** A string made of digits of [radix] only. *)
Fixpoint radixDigits (radix : Z) (s : string) (acc : Z) : option Z :=
  match s with
  | EmptyString => Some acc
  | String c r =>
      match digitVal radix c with
      | Some d => radixDigits radix r (radix * acc + d)
      | None => None
      end
  end.

(** [NonDecimalIntegerLiteral]: [0x], [0o] or [0b] and at least one digit. *)
Definition nonDecimalLiteral (s : string) : option number :=
  match s with
  | String "0" (String c (String d r)) =>
      let radix :=
        if (Ascii.eqb c "x" || Ascii.eqb c "X")%bool then 16
        else if (Ascii.eqb c "o" || Ascii.eqb c "O")%bool then 8
        else if (Ascii.eqb c "b" || Ascii.eqb c "B")%bool then 2
        else 0 in
      match radixDigits radix (String d r) 0 with
      | Some v => Some (binary_normalize prec emax v 0 false)
      | None => None
      end
  | _ => None
  end.

(** [ExponentPart], optional: the exponent, or [None] when what follows the
    mantissa is not an exponent part. *)
Definition exponentPart (s : string) : option Z :=
  match s with
  | EmptyString => Some 0
  | String c r =>
      if (Ascii.eqb c "e" || Ascii.eqb c "E")%bool then
        let '(neg, r') :=
          match r with
          | String "-" t => (true, t)
          | String "+" t => (false, t)
          | _ => (false, r)
          end in
        match decimalDigits r' 0 0 with
        | (v, cnt, EmptyString) =>
            if 0 <? cnt then Some (if neg then - v else v) else None
        | _ => None
        end
      else None
  end.

(** [StrUnsignedDecimalLiteral] *)
Definition unsignedDecimalLiteral (neg : bool) (s : string) : option number :=
  if String.eqb s "Infinity" then Some (S754_infinity neg)
  else
    let '(ip, icnt, r) := decimalDigits s 0 0 in
    let '(m, fcnt, r') :=
      match r with
      | String "." t => decimalDigits t ip 0
      | _ => (ip, 0, r)
      end in
    if 0 <? icnt + fcnt then
      match exponentPart r' with
      | Some e => Some (ofDecimal neg m (e - fcnt))
      | None => None
      end
    else None.

(** [StrNumericLiteral] *)
Definition numericLiteral (s : string) : option number :=
  match nonDecimalLiteral s with
  | Some v => Some v
  | None =>
      match s with
      | String "-" r => unsignedDecimalLiteral true r
      | String "+" r => unsignedDecimalLiteral false r
      | _ => unsignedDecimalLiteral false s
      end
  end.

(** [Number(s)] for a string [s]: white space is trimmed, the empty string
    is [+0], a numeric literal is its rounded value, anything else [NaN]. *)
Definition ofString (s : string) : number :=
  match JsString.trim s with
  | EmptyString => S754_zero false
  | t => match numericLiteral t with
         | Some v => v
         | None => NaN
         end
  end.

(** The strings that [Number] turns into a number rather than [NaN]. *)
Definition isNumericString (s : string) : bool :=
  match JsString.trim s with
  | EmptyString => true
  | t => match numericLiteral t with
         | Some _ => true
         | None => false
         end
  end.

(** *** Number::toString, radix 10 *)

Definition digitsOf (z : Z) : string :=
  NilZero.string_of_uint (N.to_uint (Z.to_N z)).

Definition numDigits (z : Z) : Z := Z.of_nat (String.length (digitsOf z)).

(** The integer [n] with [10^(n-1) <= p/q < 10^n]. *)
Definition decimalExponent (p q : Z) : Z :=
  if q <=? p then numDigits (p / q)
  else 1 - numDigits ((q + p - 1) / p - 1).

(** The candidates with [k] digits: [(s, n)] such that [s * 10^(n-k)]
    converts back to [x], where [x = p/q] and [n0 = decimalExponent p q];
    the closer one of the two neighbours of [x], the even one on a tie. *)
Definition shortestAt (x : number) (p q n0 k : Z) : option (Z * Z) :=
  let scale := n0 - k in
  let num := if 0 <=? scale then p else p * 10 ^ (- scale) in
  let den := if 0 <=? scale then q * 10 ^ scale else q in
  let lo := num / den in
  let hi := lo + 1 in
  let rlo := same (ofDecimal false lo scale) x in
  let rhi := same (ofDecimal false hi scale) x in
  let pick (c : Z) := if c =? 10 ^ k then Some (1, n0 + 1) else Some (c, n0) in
  match rlo, rhi with
  | true, true =>
      match 2 * num ?= (lo + hi) * den with
      | Lt => pick lo
      | Gt => pick hi
      | Eq => pick (if Z.even lo then lo else hi)
      end
  | true, false => pick lo
  | false, true => pick hi
  | false, false => None
  end.

(** The least number of digits that converts back; seventeen always do. *)
Fixpoint shortest (fuel : nat) (x : number) (p q n0 k : Z) : Z * Z :=
  match fuel with
  | O => ((if 0 <=? n0 - k then p else p * 10 ^ (k - n0))
            / (if 0 <=? n0 - k then q * 10 ^ (n0 - k) else q), n0)
  | S fuel' =>
      match shortestAt x p q n0 k with
      | Some r => r
      | None => shortest fuel' x p q n0 (k + 1)
      end
  end.

Fixpoint zeros (n : nat) : string :=
  match n with
  | O => EmptyString
  | S n' => String "0" (zeros n')
  end.

(** Decimal or exponential layout of the digits [ds] of [s], given [n]. *)
Definition layout (ds : string) (n : Z) : string :=
  let k := Z.of_nat (String.length ds) in
  if (k <=? n) && (n <=? 21) then ds ++ zeros (Z.to_nat (n - k))
  else if (0 <? n) && (n <=? 21) then
    String.substring 0 (Z.to_nat n) ds ++ "."
      ++ JsString.drop (Z.to_nat n) ds
  else if (-6 <? n) && (n <=? 0) then "0." ++ zeros (Z.to_nat (- n)) ++ ds
  else
    let e := n - 1 in
    let sgn := if e <? 0 then "-" else "+" in
    let mant := match ds with
                | String d (String d' r) => String d (String "." (String d' r))
                | _ => ds
                end in
    mant ++ "e" ++ sgn ++ digitsOf (Z.abs e).

(** [String(x)], which is what a template literal does with a number. *)
Definition toString (x : number) : string :=
  match x with
  | S754_nan => "NaN"
  | S754_zero _ => "0"
  | S754_infinity neg => if neg then "-Infinity" else "Infinity"
  | S754_finite neg m e =>
      let p := if 0 <=? e then Zpos m * 2 ^ e else Zpos m in
      let q := if 0 <=? e then 1 else 2 ^ (- e) in
      let ax := binary_normalize prec emax (Zpos m) e false in
      let '(s, n) := shortest 17 ax p q (decimalExponent p q) 1 in
      (if neg then "-" else "") ++ layout (digitsOf s) n
  end.

End JsNumber.

(** ** The bot *)

Module Bot.

Import JsString JsNumber.

Local Open Scope string_scope.

(** *** Data exchanged with the backend and the chat server *)

(** An optional string field of a JSON object: missing, [null], or a
    string. *)
Inductive field : Type :=
| Absent
| Null
| Str (s : string).

(** Modelled from the spec: the type [BalanceResponse] of [src/types],
    [{ balance: string|number }]. *)
Inductive balanceField : Type :=
| BalanceStr (s : string)
| BalanceNum (n : number).

Record BalanceResponse : Type := { balance : balanceField }.

(** Modelled from the spec: the type [DripResponse] of [src/types],
    [{ hash?: string, error?: string }], where either field may also be
    [null]. *)
Record DripResponse : Type := { hash : field; error : field }.

(** The object handed to [ax.post]. *)
Record DripRequest : Type := {
  address : string;
  amount : number;
  parachain_id : string;
  sender : string
}.

(** The environment variables read at start-up (apart from the access
    token, which the handler does not use).  [NETWORK_DECIMALS] is taken in
    its intended domain, the natural numbers. *)
Record Env : Type := {
  MATRIX_BOT_USER_ID : string;
  BACKEND_URL : string;
  NETWORK_DECIMALS : N;
  NETWORK_UNIT : string;
  DRIP_AMOUNT : number;
  FAUCET_IGNORE_LIST : string
}.

(** What the handler reads from a [MatrixEvent]: [getType()], [getSender()]
    ([None] when undefined), [getRoomId()] and [getContent().body] ([None]
    when the content has no string body). *)
Record MatrixEvent : Type := {
  getType : string;
  getSender : option string;
  getRoomId : string;
  body : option string
}.

(** The outcome of a request: the promise resolves with the response data
    or rejects with an error carrying a message. *)
Inductive response (A : Type) : Type :=
| Resolved (data : A)
| Rejected (message : string).

Arguments Resolved {A} data.
Arguments Rejected {A} message.

(** How [bot.sendEvent] ends: the error passed to its callback and the
    reason of the promise's rejection, if any. *)
Record sendResult : Type := {
  callbackErr : option string;
  rejection : option string
}.

(** *** Effects *)

Inductive level : Type := Debug | Info | Warn | Error.

(** What the handler does, as a tree: a node is an effect, and the subtree
    is what follows once the environment has answered. *)
Inductive proc : Type :=
| Done
| Throw (e : string)
| DoLog (l : level) (args : list string) (k : proc)
| DoSend (roomId eventType msg msgtype : string) (k : sendResult -> proc)
| DoGet (baseURL path : string) (k : response BalanceResponse -> proc)
| DoPost (baseURL path : string) (data : DripRequest)
         (k : response DripResponse -> proc).

(** [p] followed by [q]; nothing follows an uncaught exception. *)
Fixpoint andThen (p q : proc) : proc :=
  match p with
  | Done => q
  | Throw e => Throw e
  | DoLog l a k => DoLog l a (andThen k q)
  | DoSend r t m mt k => DoSend r t m mt (fun x => andThen (k x) q)
  | DoGet u pa k => DoGet u pa (fun x => andThen (k x) q)
  | DoPost u pa d k => DoPost u pa d (fun x => andThen (k x) q)
  end.

(** The observable events of a run. *)
Inductive obs : Type :=
| Log (l : level) (args : list string)
| HttpGet (baseURL path : string)
| HttpPost (baseURL path : string) (data : DripRequest)
| SendEvent (roomId eventType msg msgtype : string)
| Uncaught (e : string).

(** The answers of the outside world. *)
Record World : Type := {
  balanceReply : response BalanceResponse;
  dripReply : DripRequest -> response DripResponse;
  sendReply : string -> string -> sendResult
}.

Fixpoint run (w : World) (p : proc) : list obs :=
  match p with
  | Done => []
  | Throw e => [Uncaught e]
  | DoLog l a k => Log l a :: run w k
  | DoSend r t m mt k => SendEvent r t m mt :: run w (k (sendReply w r m))
  | DoGet u pa k => HttpGet u pa :: run w (k (balanceReply w))
  | DoPost u pa d k => HttpPost u pa d :: run w (k (dripReply w d))
  end.

Definition isHttp (o : obs) : bool :=
  match o with
  | HttpGet _ _ | HttpPost _ _ _ => true
  | _ => false
  end.

Definition isSend (o : obs) : bool :=
  match o with
  | SendEvent _ _ _ _ => true
  | _ => false
  end.

Definition isWarning (o : obs) : bool :=
  match o with
  | Log Warn _ => true
  | _ => false
  end.

(** The chat messages of a trace: room and text. *)
Fixpoint sent (tr : list obs) : list (string * string) :=
  match tr with
  | [] => []
  | SendEvent r _ m _ :: tr' => (r, m) :: sent tr'
  | _ :: tr' => sent tr'
  end.

(** The requests to the backend in a trace. *)
Definition requests (tr : list obs) : list obs := filter isHttp tr.

(** *** Start-up: the ignore list (lines 55-57) *)

(** The one-character string made of a double quote (code 34). *)
Definition quote : string := String "034" EmptyString.

Definition parseIgnoreList (raw : string) : list string :=
  map (fun item => replace quote "" item) (split "," raw).

(** *** The handler *)

Definition nl : string := String "010" EmptyString.

Definition fallbackMessage : string :=
  "An unexpected error occured, please check the server logs".

Definition balanceErrorMessage : string :=
  "An error occured, please check the server logs.".

Definition trustedSuffix : string := ":matrix.parity.io".

(** [Number(res.data.balance)] *)
Definition balanceNumber (b : balanceField) : number :=
  match b with
  | BalanceStr s => ofString s
  | BalanceNum n => n
  end.

(** A field inside a template literal. *)
Definition fieldText (f : field) : string :=
  match f with
  | Absent => "undefined"
  | Null => "null"
  | Str s => s
  end.

(** [f || other] *)
Definition fieldOr (f : field) (other : string) : string :=
  match f with
  | Str s => if truthy s then s else other
  | _ => other
  end.

(** Modelled from the spec: the guard [isDripSuccessResponse] of
    [src/guards], which is not among the sources.  A drip response is a
    success when it carries a non-empty hash; a missing, [null] or empty
    hash makes it a failure. *)
Definition isDripSuccessResponse (d : DripResponse) : bool :=
  match hash d with
  | Str s => truthy s
  | _ => false
  end.

(** Line 135: [const [action, arg0, arg1] = body.split(' ')].  The first
    element always exists; the others are [None] when undefined. *)
Definition action (body : string) : string := hd "" (split " " body).
Definition arg0 (body : string) : option string := nth_error (split " " body) 1.
Definition arg1 (body : string) : option string := nth_error (split " " body) 2.

Section Handler.

(** [decodeAddress] of [@polkadot/keyring]: [None] when it throws. *)
Variable decodeAddress : string -> option (list Byte.byte).

Variable env : Env.

(** Lines 49-57. *)
Definition botUserId : string := MATRIX_BOT_USER_ID env.
Definition baseURL : string := BACKEND_URL env.
Definition decimals : N := NETWORK_DECIMALS env.
Definition unit : string := NETWORK_UNIT env.
Definition defaultDripAmount : number := DRIP_AMOUNT env.
Definition ignoreList : list string := parseIgnoreList (FAUCET_IGNORE_LIST env).

Definition logFailure (e : option string) : proc :=
  match e with
  | Some err => DoLog Error [err] Done
  | None => Done
  end.

(** [sendMessage(roomId, msg)], followed by [k].  The send is not awaited:
    a failure is logged after what the caller still does. *)
Definition sendMessage (roomId msg : string) (k : proc) : proc :=
  DoSend roomId "m.room.message" msg "m.text"
    (fun r => andThen k (andThen (logFailure (callbackErr r))
                                 (logFailure (rejection r)))).

Definition helpText : string :=
  "The following commands are supported:" ++ nl
  ++ "!balance - Get the faucet's balance." ++ nl
  ++ "!drip <Address>[:ParachainId] - Send " ++ unit
  ++ "s to <Address>, if the optional suffix `:SomeParachainId` is given"
  ++ " a teleport will be issued."
  ++ nl ++ "!help - Print this message".

Definition printHelpMessage (roomId message : string) : proc :=
  sendMessage roomId
    ((if truthy message then message ++ " - " else "") ++ helpText) Done.

(** The reply to [!balance] when the request succeeds (line 144). *)
Definition balanceMessage (data : BalanceResponse) : string :=
  "The faucet has "
  ++ toString (div (balanceNumber (balance data)) (pow10 decimals))
  ++ " " ++ unit ++ "s remaining.".

(** The continuations of [ax.get('/balance')] (lines 139-150). *)
Definition onBalance (roomId : string) (res : response BalanceResponse) : proc :=
  match res with
  | Resolved data => sendMessage roomId (balanceMessage data) Done
  | Rejected e =>
      sendMessage roomId balanceErrorMessage
        (DoLog Error ["⭕ An error occured when checking the balance"; e] Done)
  end.

(** Lines 157-159: the address and the parachain id of the first argument. *)
Definition addressOf (arg0 : string) : string :=
  hd "" (split ":" (trim arg0)).

Definition parachainIdOf (arg0 : string) : string :=
  match nth_error (split ":" (trim arg0)) 1 with
  | Some p => if truthy p then p else ""
  | None => ""
  end.

(** Lines 134 and 171-174: the amount to drip. *)
Definition dripAmountFor (sender : string) (arg1 : option string) : number :=
  match arg1 with
  | Some a =>
      if endsWith sender trustedSuffix && truthy a then ofString a
      else defaultDripAmount
  | None => defaultDripAmount
  end.

Definition successMessage (sender : string) (dripAmount : number)
    (data : DripResponse) : string :=
  "Sent " ++ sender ++ " " ++ toString dripAmount ++ " " ++ unit
  ++ "s. Extrinsic hash: " ++ fieldText (hash data).

(** The message of lines 184-187. *)
Definition dripMessage (sender : string) (dripAmount : number)
    (data : DripResponse) : string :=
  if isDripSuccessResponse data then successMessage sender dripAmount data
  else fieldOr (error data) fallbackMessage.

(** The continuations of [ax.post('/bot-endpoint', ...)] (lines 182-198). *)
Definition onDrip (roomId sender : string) (dripAmount : number)
    (res : response DripResponse) : proc :=
  match res with
  | Resolved data => sendMessage roomId (dripMessage sender dripAmount data) Done
  | Rejected e =>
      sendMessage roomId (if truthy e then e else fallbackMessage)
        (DoLog Error ["⭕ An error occured when dripping"; e] Done)
  end.

(** The object of lines 176-181, for a first argument [a0]. *)
Definition dripRequest (sender a0 : string) (arg1 : option string)
  : DripRequest :=
  {| address := addressOf a0;
     amount := dripAmountFor sender arg1;
     parachain_id := parachainIdOf a0;
     sender := sender |}.

(** The [!drip] branch (lines 152-198). *)
Definition drip (roomId sender : string) (arg0 arg1 : option string) : proc :=
  match arg0 with
  | None => DoLog Warn ["Address not provided, skipping"] Done
  | Some a0 =>
      if negb (truthy a0) then DoLog Warn ["Address not provided, skipping"] Done
      else
        let address := addressOf a0 in
        let parachain_id := parachainIdOf a0 in
        DoLog Debug ["Processed receiver to address " ++ address
                     ++ " and parachain id " ++ parachain_id]
          match decodeAddress address with
          | None =>
              sendMessage roomId (sender ++ " provided an incompatible address.")
                Done
          | Some _ =>
              let dripAmount := dripAmountFor sender arg1 in
              DoPost baseURL "/bot-endpoint" (dripRequest sender a0 arg1)
                (onDrip roomId sender dripAmount)
          end
  end.

(** Lines 134-203: the command of a message body. *)
Definition dispatch (roomId sender body : string) : proc :=
  if String.eqb (action body) "!balance" then
    DoGet baseURL "/balance" (onBalance roomId)
  else if String.eqb (action body) "!drip" then
    drip roomId sender (arg0 body) (arg1 body)
  else if String.eqb (action body) "!help" then printHelpMessage roomId ""
  else if startsWith (action body) "!" then
    printHelpMessage roomId "Unknown command"
  else Done.

(** The [Room.timeline] listener (lines 111-204). *)
Definition onRoomTimeline (event : MatrixEvent) : proc :=
  let roomId := getRoomId event in
  if negb (String.eqb (getType event) "m.room.message") then Done
  else
    match getSender event with
    | None => Done
    | Some sender =>
        if negb (truthy sender) || String.eqb sender botUserId then Done
        else if includes ignoreList sender then
          DoLog Warn
            ["🏴‍☠️ Ignored request from an ignored account: " ++ sender] Done
        else
          DoLog Debug ["Processing request from " ++ sender]
            match body event with
            | None => Throw "TypeError"
            | Some b => dispatch roomId sender b
            end
    end.

End Handler.

(** The event is a text message that passes the three filters of lines
    117-130: it reaches the command dispatch with sender [s] and body [b]. *)
Definition dispatched (env : Env) (ev : MatrixEvent) (s b : string) : Prop :=
  getType ev = "m.room.message"
  /\ getSender ev = Some s
  /\ truthy s = true
  /\ String.eqb s (botUserId env) = false
  /\ includes (ignoreList env) s = false
  /\ body ev = Some b.

End Bot.

(** ** Sample configuration, used to instantiate the results *)

Module Sample.

Import JsString JsNumber Bot.

Local Open Scope string_scope.

Definition alice : string := "5GrwvaEF5zXb26Fz9rcQpDWS57CtERHpNehXCPcNoHGKutQY".

(** A decoder that accepts the address [alice] only. *)
Definition decoder (a : string) : option (list Byte.byte) :=
  if String.eqb a alice then Some [] else None.

(** The defaults of lines 17-45, a bot identity and one ignored account. *)
Definition env : Env := {|
  MATRIX_BOT_USER_ID := "@faucet:matrix.org";
  BACKEND_URL := "http://localhost:5555";
  NETWORK_DECIMALS := 12;
  NETWORK_UNIT := "UNIT";
  DRIP_AMOUNT := ofString "0.5";
  FAUCET_IGNORE_LIST := "@spammer:matrix.org"
|}.

Definition delivered : sendResult :=
  {| callbackErr := None; rejection := None |}.

(** A backend that answers every request as given. *)
Definition world (b : response BalanceResponse) (d : response DripResponse)
  : World :=
  {| balanceReply := b; dripReply := fun _ => d;
     sendReply := fun _ _ => delivered |}.

Definition noBalance : response BalanceResponse := Rejected "timeout".
Definition noDrip : response DripResponse := Rejected "timeout".

Definition message (sender text : string) : MatrixEvent :=
  {| getType := "m.room.message"; getSender := Some sender;
     getRoomId := "!faucet:matrix.org"; body := Some text |}.

End Sample.

(** ** Start-up and room membership *)

Module Lifecycle.

Import JsString JsNumber Bot.

Local Open Scope string_scope.

(** The defaults of lines 17-45, with a bot identity. *)
Definition defaults : Env := {|
  MATRIX_BOT_USER_ID := "@faucet:matrix.org";
  BACKEND_URL := "http://localhost:5555";
  NETWORK_DECIMALS := 12;
  NETWORK_UNIT := "UNIT";
  DRIP_AMOUNT := ofString "0.5";
  FAUCET_IGNORE_LIST := ""
|}.

(** Lines 59-63: the ignore list is shown at start-up when it is not empty.
    The length is a small integer, printed with its decimal digits. *)
Definition startupLog (env : Env) : list obs :=
  if (0 <? List.length (ignoreList env))%nat then
    Log Info ["Ignore list: ("
              ++ digitsOf (Z.of_nat (List.length (ignoreList env)))
              ++ " entries)"]
    :: map (fun account => Log Info [" '" ++ account ++ "'"]) (ignoreList env)
  else [].

(** The member of a [RoomMember.membership] event, a
    [Record<string, string>]. *)
Record RoomMember : Type := {
  membership : string;
  userId : string;
  roomId : string
}.

(** What the membership listener does. *)
Inductive joinObs : Type :=
| JoinRoom (room : string)
| JoinLog (l : level) (args : list string).

(** Lines 100-109.  [joinReply] is the outcome of [bot.joinRoom]: [None]
    when the promise resolves, the error when it rejects. *)
Definition onMembership (env : Env) (joinReply : string -> option string)
    (member : RoomMember) : list joinObs :=
  if String.eqb (membership member) "invite"
     && String.eqb (userId member) (botUserId env)
  then
    JoinRoom (roomId member)
    :: match joinReply (roomId member) with
       | None => [JoinLog Info ["Auto-joined " ++ roomId member ++ "."]]
       | Some e => [JoinLog Error ["⭕ Auto-join error"; e]]
       end
  else [].

(** The number of occurrences of a character. *)
Fixpoint occurrences (c : ascii) (s : string) : nat :=
  match s with
  | EmptyString => O
  | String d r => (if Ascii.eqb d c then 1 else 0) + occurrences c r
  end.

(** No character of [s] is white space. *)
Fixpoint solid (s : string) : bool :=
  match s with
  | EmptyString => true
  | String c r => negb (isWhiteSpace c) && solid r
  end.

(** What an observable event of the handler must look like, for an event
    [ev]: a chat message goes to the room of [ev] as a text message; a GET
    asks for the balance; a POST goes to the drip endpoint for the sender
    of [ev], with an address that decodes and holds no colon; and an
    exception escapes only when [ev] has no text body. *)
Definition expected (decodeAddress : string -> option (list Byte.byte))
    (env : Env) (ev : MatrixEvent) (o : obs) : Prop :=
  match o with
  | Log _ _ => True
  | HttpGet u p => u = baseURL env /\ p = "/balance"
  | HttpPost u p d =>
      u = baseURL env /\ p = "/bot-endpoint"
      /\ getSender ev = Some (sender d)
      /\ decodeAddress (address d) <> None
      /\ lacks ":" (address d) = true
      /\ lacks ":" (parachain_id d) = true
  | SendEvent r t m mt =>
      r = getRoomId ev /\ t = "m.room.message" /\ mt = "m.text"
  | Uncaught _ => body ev = None
  end.

(** The only warning of a command is the one about a missing address. *)
Definition mild (o : obs) : Prop :=
  match o with
  | Log Warn args => args = ["Address not provided, skipping"]
  | _ => True
  end.

End Lifecycle.

(** ** Properties of the string primitives *)

Module JsStringFacts.

Import JsString.

Local Open Scope string_scope.

Lemma split_lacks (sep : ascii) (s : string) :
  lacks sep s = true -> split sep s = [s].
Proof.
  induction s as [|c r IH]; simpl; intros H.
  - reflexivity.
  - apply andb_prop in H. destruct H as [Hc Hr].
    apply negb_true_iff in Hc. rewrite Hc, (IH Hr). reflexivity.
Qed.

Lemma split_app (sep : ascii) (a r : string) :
  lacks sep a = true -> split sep (a ++ String sep r) = a :: split sep r.
Proof.
  induction a as [|c a IH]; simpl; intros H.
  - rewrite Ascii.eqb_refl. reflexivity.
  - apply andb_prop in H. destruct H as [Hc Ha].
    apply negb_true_iff in Hc. rewrite Hc, (IH Ha). reflexivity.
Qed.

(** Splitting two fields joined by the separator. *)
Lemma split_pair (sep : ascii) (a b : string) :
  lacks sep a = true -> lacks sep b = true ->
  split sep (a ++ String sep b) = [a; b].
Proof.
  intros Ha Hb. rewrite (split_app _ _ _ Ha), (split_lacks _ _ Hb). reflexivity.
Qed.

(** Splitting undoes joining, for fields free of the separator. *)
Lemma split_concat (sep : ascii) (e : string) (es : list string) :
  Forall (fun x => lacks sep x = true) (e :: es) ->
  split sep (String.concat (String sep EmptyString) (e :: es)) = e :: es.
Proof.
  revert e. induction es as [|e' es IH]; intros e H.
  - simpl. apply split_lacks. exact (Forall_inv H).
  - pose proof (Forall_inv H) as He. pose proof (Forall_inv_tail H) as Hes.
    simpl in He.
    change (String.concat (String sep "") (e :: e' :: es))
      with (e ++ String sep (String.concat (String sep "") (e' :: es))).
    rewrite (split_app _ _ _ He), (IH _ Hes). reflexivity.
Qed.

Lemma prefix_quote (c d : ascii) (r : string) :
  String.prefix (String c EmptyString) (String d r) = Ascii.eqb c d.
Proof.
  simpl. destruct (ascii_dec c d) as [->|Hn].
  - rewrite Ascii.eqb_refl. now destruct r.
  - symmetry. now apply Ascii.eqb_neq.
Qed.

(** Replacing a one-character pattern by nothing removes its first
    occurrence and leaves what follows untouched. *)
Lemma replace_first (c : ascii) (a b : string) :
  lacks c a = true ->
  replace (String c EmptyString) "" (a ++ String c b) = a ++ b.
Proof.
  induction a as [|d a IH]; intros H.
  - change (replace (String c "") "" (String c b) = b).
    unfold replace; fold replace. now rewrite prefix_quote, Ascii.eqb_refl.
  - simpl in H. apply andb_prop in H. destruct H as [Hd Ha].
    apply negb_true_iff in Hd.
    change (replace (String c "") "" (String d (a ++ String c b))
            = String d (a ++ b)).
    unfold replace; fold replace. rewrite prefix_quote.
    rewrite Ascii.eqb_sym, Hd. now rewrite (IH Ha).
Qed.

Lemma replace_absent (c : ascii) (a : string) :
  lacks c a = true -> replace (String c EmptyString) "" a = a.
Proof.
  induction a as [|d a IH]; intros H.
  - reflexivity.
  - simpl in H. apply andb_prop in H. destruct H as [Hd Ha].
    apply negb_true_iff in Hd.
    unfold replace; fold replace. rewrite prefix_quote.
    rewrite Ascii.eqb_sym, Hd. now rewrite (IH Ha).
Qed.

Lemma append_tail_neq (u : string) (c : ascii) :
  u ++ String c EmptyString <> u.
Proof.
  induction u as [|d u IH]; simpl; intros H.
  - discriminate H.
  - injection H as H. exact (IH H).
Qed.

(** A string starts with ['!'] exactly when its first space-separated token
    does. *)
Lemma startsWith_first_token (b : string) :
  startsWith (hd "" (split " " b)) "!" = startsWith b "!".
Proof.
  destruct b as [|c r]; [reflexivity|].
  unfold startsWith. cbn [split].
  destruct (Ascii.eqb c " ") eqn:Hc.
  - apply Ascii.eqb_eq in Hc. subst c. reflexivity.
  - destruct (split " " r); cbn [hd]; now rewrite !prefix_quote.
Qed.

End JsStringFacts.

(** ** The number primitives on sample values *)

Module JsNumberFacts.

Import JsNumber.

Local Open Scope string_scope.

Example ofString_half :
  ofString "0.5" = S754_finite false 4503599627370496 (-53).
Proof. vm_compute. reflexivity. Qed.

Example ofString_tenth :
  ofString "0.1" = S754_finite false 7205759403792794 (-56).
Proof. vm_compute. reflexivity. Qed.

Example ofString_blank : ofString "  " = S754_zero false.
Proof. reflexivity. Qed.

Example ofString_hex : toString (ofString "0x1F") = "31".
Proof. vm_compute. reflexivity. Qed.

Example ofString_units : ofString "12px" = NaN.
Proof. vm_compute. reflexivity. Qed.

Example toString_round_trip :
  map (fun s => toString (ofString s))
    ["0.5"; "0.1"; "0.30000000000000004"; "1e21"; "123456789012345680000";
     "5e-324"; "1.7976931348623157e308"; "1e-7"; "0.000001"; "-1.5e3";
     "1e400"; "-Infinity"; "9007199254740993"]
  = ["0.5"; "0.1"; "0.30000000000000004"; "1e+21"; "123456789012345680000";
     "5e-324"; "1.7976931348623157e+308"; "1e-7"; "0.000001"; "-1500";
     "Infinity"; "-Infinity"; "9007199254740992"].
Proof. vm_compute. reflexivity. Qed.

Example third :
  toString (div (ofString "1") (ofString "3")) = "0.3333333333333333".
Proof. vm_compute. reflexivity. Qed.

Lemma div_NaN (y : number) : div NaN y = NaN.
Proof. reflexivity. Qed.

(** The powers of ten are the numbers their decimal writing reads as. *)
Example pow10_exact :
  pow10 22 = ofString "10000000000000000000000"
  /\ pow10 12 = ofString "1000000000000".
Proof. split; vm_compute; reflexivity. Qed.

End JsNumberFacts.

(** ** Properties of the handler *)

Module BotFacts.

Import JsString JsNumber Bot JsStringFacts.

Local Open Scope string_scope.

Section Traces.

Variable w : World.

Lemma failure_logs_sent (a b : option string) :
  sent (run w (andThen (logFailure a) (logFailure b))) = [].
Proof. destruct a, b; reflexivity. Qed.

Lemma failure_logs_requests (a b : option string) :
  requests (run w (andThen (logFailure a) (logFailure b))) = [].
Proof. destruct a, b; reflexivity. Qed.

(** A message sent as the last step. *)
Lemma sent_sendMessage (room msg : string) :
  sent (run w (sendMessage room msg Done)) = [(room, msg)].
Proof. simpl. now rewrite failure_logs_sent. Qed.

Lemma requests_sendMessage (room msg : string) :
  requests (run w (sendMessage room msg Done)) = [].
Proof. unfold requests. simpl. apply failure_logs_requests. Qed.

(** A message sent before a last log entry. *)
Lemma sent_sendMessage_log (room msg : string) (l : level)
    (args : list string) :
  sent (run w (sendMessage room msg (DoLog l args Done))) = [(room, msg)].
Proof. simpl. now rewrite failure_logs_sent. Qed.

Lemma requests_sendMessage_log (room msg : string) (l : level)
    (args : list string) :
  requests (run w (sendMessage room msg (DoLog l args Done))) = [].
Proof. unfold requests. simpl. apply failure_logs_requests. Qed.

Variable decodeAddress : string -> option (list Byte.byte).
Variable env : Env.

Lemma run_dispatched (ev : MatrixEvent) (s b : string) :
  dispatched env ev s b ->
  run w (onRoomTimeline decodeAddress env ev)
  = Log Debug ["Processing request from " ++ s]
      :: run w (dispatch decodeAddress env (getRoomId ev) s b).
Proof.
  intros (Ht & Hs & Htr & Hb & Hi & Hbody).
  unfold onRoomTimeline. rewrite Ht, Hs, Htr, Hb, Hi, Hbody. reflexivity.
Qed.

(** A token that does not start with ['!'] is none of the commands. *)
Lemma not_a_command (a : string) :
  startsWith a "!" = false ->
  String.eqb a "!balance" = false /\ String.eqb a "!drip" = false
  /\ String.eqb a "!help" = false.
Proof.
  destruct a as [|c r]; [now repeat split|].
  unfold startsWith. rewrite prefix_quote, Ascii.eqb_sym. intros Hc.
  cbn [String.eqb]. rewrite Hc. now repeat split.
Qed.

(** The [!drip] branch is taken when the first token is [!drip]. *)
Lemma dispatch_drip (room s b : string) :
  action b = "!drip" ->
  dispatch decodeAddress env room s b
  = drip decodeAddress env room s (arg0 b) (arg1 b).
Proof. unfold dispatch. intros ->. reflexivity. Qed.

Lemma dispatch_balance (room s b : string) :
  action b = "!balance" ->
  dispatch decodeAddress env room s b
  = DoGet (baseURL env) "/balance" (onBalance env room).
Proof. unfold dispatch. intros ->. reflexivity. Qed.

End Traces.

(** C7.  A text message from a sender that is neither the bot nor on the
    ignore list, and whose first token does not start with ['!'], is only
    logged: the bot sends no chat message and makes no request to the
    backend. *)
Theorem chatter_is_left_alone
    (decodeAddress : string -> option (list Byte.byte)) (env : Env)
    (w : World) (ev : MatrixEvent) (s b : string) :
  dispatched env ev s b ->
  startsWith (action b) "!" = false ->
  run w (onRoomTimeline decodeAddress env ev)
  = [Log Debug ["Processing request from " ++ s]]
  /\ sent (run w (onRoomTimeline decodeAddress env ev)) = []
  /\ requests (run w (onRoomTimeline decodeAddress env ev)) = [].
Proof.
  intros Hd Ha.
  assert (run w (onRoomTimeline decodeAddress env ev)
          = [Log Debug ["Processing request from " ++ s]]) as Hrun.
  { rewrite (run_dispatched w decodeAddress env ev s b Hd).
    destruct (not_a_command _ Ha) as (H1 & H2 & H3).
    unfold dispatch. now rewrite H1, H2, H3, Ha. }
  rewrite Hrun. now repeat split.
Qed.

Lemma chatter_is_left_alone_witness :
  dispatched Sample.env (Sample.message "@alice:matrix.org" "thanks !help")
    "@alice:matrix.org" "thanks !help"
  /\ sent (run (Sample.world Sample.noBalance Sample.noDrip)
             (onRoomTimeline Sample.decoder Sample.env
                (Sample.message "@alice:matrix.org" "thanks !help"))) = [].
Proof.
  assert (dispatched Sample.env
            (Sample.message "@alice:matrix.org" "thanks !help")
            "@alice:matrix.org" "thanks !help") as Hd
    by (repeat split; reflexivity).
  split; [exact Hd|].
  apply (chatter_is_left_alone Sample.decoder Sample.env
           (Sample.world Sample.noBalance Sample.noDrip) _ _ _ Hd).
  reflexivity.
Defined.

(** C3, as stated, fails: when the bot's own identifier is on the ignore
    list, a message from that identifier is dropped by the earlier filter of
    line 122, and nothing at all is logged. *)
Lemma ignored_bot_is_not_logged :
  let env := {| MATRIX_BOT_USER_ID := "@faucet:matrix.org";
                BACKEND_URL := "http://localhost:5555";
                NETWORK_DECIMALS := 12;
                NETWORK_UNIT := "UNIT";
                DRIP_AMOUNT := ofString "0.5";
                FAUCET_IGNORE_LIST := "@spammer:matrix.org,@faucet:matrix.org" |} in
  let ev := Sample.message "@faucet:matrix.org" "!balance" in
  getType ev = "m.room.message"
  /\ getSender ev = Some "@faucet:matrix.org"
  /\ includes (ignoreList env) "@faucet:matrix.org" = true
  /\ run (Sample.world Sample.noBalance Sample.noDrip)
         (onRoomTimeline Sample.decoder env ev) = []
  /\ existsb isWarning
       (run (Sample.world Sample.noBalance Sample.noDrip)
            (onRoomTimeline Sample.decoder env ev)) = false.
Proof. repeat split; reflexivity. Qed.

(** C3, amended.  A text message whose sender is on the ignore list causes
    no request to the backend and no chat message; and when that sender is
    not the bot itself (nor the empty identifier), the run consists of
    exactly one warning naming the sender. *)
Theorem ignored_sender_is_dropped
    (decodeAddress : string -> option (list Byte.byte)) (env : Env)
    (w : World) (ev : MatrixEvent) (s : string) :
  getType ev = "m.room.message" ->
  getSender ev = Some s ->
  includes (ignoreList env) s = true ->
  requests (run w (onRoomTimeline decodeAddress env ev)) = []
  /\ sent (run w (onRoomTimeline decodeAddress env ev)) = []
  /\ (truthy s = true -> String.eqb s (botUserId env) = false ->
      run w (onRoomTimeline decodeAddress env ev)
      = [Log Warn ["🏴‍☠️ Ignored request from an ignored account: " ++ s]]).
Proof.
  intros Ht Hs Hi. unfold onRoomTimeline. rewrite Ht, Hs, Hi.
  cbn [negb String.eqb Ascii.eqb Bool.eqb].
  destruct (negb (truthy s) || String.eqb s (botUserId env))%bool eqn:Hf.
  - repeat split. intros H1 H2. now rewrite H1, H2 in Hf.
  - now repeat split.
Qed.

Lemma ignored_sender_is_dropped_witness :
  includes (ignoreList Sample.env) "@spammer:matrix.org" = true
  /\ run (Sample.world Sample.noBalance Sample.noDrip)
         (onRoomTimeline Sample.decoder Sample.env
            (Sample.message "@spammer:matrix.org" "!balance"))
     = [Log Warn ["🏴‍☠️ Ignored request from an ignored account: "
                  ++ "@spammer:matrix.org"]].
Proof.
  split; [reflexivity|].
  apply (ignored_sender_is_dropped Sample.decoder Sample.env
           (Sample.world Sample.noBalance Sample.noDrip)
           (Sample.message "@spammer:matrix.org" "!balance")
           "@spammer:matrix.org"); reflexivity.
Defined.

(** C8.  In the ignore list read from [FAUCET_IGNORE_LIST], each
    comma-separated entry loses its first double quote only: what follows
    that quote is kept as it is.  An entry written between two quotes keeps
    the closing one, so that the list made of it does not contain the bare
    identifier; and the empty setting gives the list whose only entry is the
    empty string. *)
Theorem ignore_list_drops_first_quote_only :
  (forall e es, Forall (fun x => lacks "," x = true) (e :: es) ->
     parseIgnoreList (String.concat "," (e :: es))
     = map (replace quote "") (e :: es))
  /\ (forall a b, lacks "034" a = true ->
        replace quote "" (a ++ quote ++ b) = a ++ b)
  /\ (forall u, lacks "034" u = true -> lacks "," u = true ->
        parseIgnoreList (quote ++ u ++ quote) = [u ++ quote]
        /\ includes (parseIgnoreList (quote ++ u ++ quote)) u = false)
  /\ parseIgnoreList "" = [""].
Proof.
  split; [|split; [|split]].
  - intros e es H. unfold parseIgnoreList.
    now rewrite (split_concat "," e es H).
  - intros a b Ha. exact (replace_first "034" a b Ha).
  - intros u Hq Hc.
    assert (parseIgnoreList (quote ++ u ++ quote) = [u ++ quote]) as Hp.
    { unfold parseIgnoreList.
      assert (lacks "," (quote ++ u ++ quote) = true) as Hl.
      { cbn. clear Hq. induction u as [|d u IH]; [reflexivity|].
        simpl in Hc |- *. apply andb_prop in Hc. destruct Hc as [H1 H2].
        now rewrite H1, (IH H2). }
      rewrite (split_lacks _ _ Hl). cbn [map]. f_equal.
      exact (replace_first "034" "" (u ++ quote) eq_refl). }
    split; [exact Hp|]. rewrite Hp. cbn [includes existsb].
    rewrite orb_false_r. apply String.eqb_neq. intros H.
    exact (append_tail_neq u "034" (eq_sym H)).
  - reflexivity.
Qed.

Lemma ignore_list_drops_first_quote_only_witness :
  parseIgnoreList (quote ++ "@user:server" ++ quote)
  = ["@user:server" ++ quote]
  /\ includes (parseIgnoreList (quote ++ "@user:server" ++ quote))
       "@user:server" = false.
Proof.
  destruct ignore_list_drops_first_quote_only as (_ & _ & H & _).
  apply (H "@user:server"); reflexivity.
Defined.

Section Balance.

Variable decodeAddress : string -> option (list Byte.byte).
Variable env : Env.
Variable w : World.

(** A string that is not numeric is coerced to [NaN]. *)
Lemma ofString_not_numeric (t : string) :
  isNumericString t = false -> ofString t = NaN.
Proof.
  unfold isNumericString, ofString.
  destruct (trim t); [discriminate|].
  now destruct (numericLiteral _).
Qed.

(** The run of a [!balance] command: one request, then what the answer
    leads to. *)
Lemma run_balance (ev : MatrixEvent) (s b : string) :
  dispatched env ev s b -> action b = "!balance" ->
  run w (onRoomTimeline decodeAddress env ev)
  = Log Debug ["Processing request from " ++ s]
      :: HttpGet (baseURL env) "/balance"
      :: run w (onBalance env (getRoomId ev) (balanceReply w)).
Proof.
  intros Hd Ha.
  rewrite (run_dispatched w decodeAddress env ev s b Hd).
  now rewrite (dispatch_balance decodeAddress env _ s b Ha).
Qed.

Lemma sent_onBalance (room : string) (res : response BalanceResponse) :
  sent (run w (onBalance env room res))
  = [(room, match res with
            | Resolved data => balanceMessage env data
            | Rejected _ => balanceErrorMessage
            end)].
Proof.
  destruct res; unfold onBalance.
  - apply sent_sendMessage.
  - apply sent_sendMessage_log.
Qed.

Lemma requests_onBalance (room : string) (res : response BalanceResponse) :
  requests (run w (onBalance env room res)) = [].
Proof.
  destruct res; unfold onBalance.
  - apply requests_sendMessage.
  - apply requests_sendMessage_log.
Qed.

Lemma balanceMessage_not_error (data : BalanceResponse) :
  balanceMessage env data <> balanceErrorMessage.
Proof. unfold balanceMessage, balanceErrorMessage. cbn [append]. discriminate. Qed.

End Balance.

Lemma five_units :
  toString (div (ofString "5000000000000") (pow10 12)) = "5".
Proof. vm_compute. reflexivity. Qed.

(** C6.  With 12 decimals and the unit [UNIT], a [!balance] command answered
    by the backend with the balance ["5000000000000"] makes the bot ask the
    backend once and reply "The faucet has 5 UNITs remaining." to the
    room. *)
Theorem balance_of_five_units
    (decodeAddress : string -> option (list Byte.byte)) (env : Env)
    (w : World) (ev : MatrixEvent) (s b : string) :
  NETWORK_DECIMALS env = 12%N ->
  NETWORK_UNIT env = "UNIT" ->
  dispatched env ev s b ->
  action b = "!balance" ->
  balanceReply w = Resolved {| balance := BalanceStr "5000000000000" |} ->
  sent (run w (onRoomTimeline decodeAddress env ev))
  = [(getRoomId ev, "The faucet has 5 UNITs remaining.")]
  /\ requests (run w (onRoomTimeline decodeAddress env ev))
     = [HttpGet (baseURL env) "/balance"].
Proof.
  intros Hdec Hunit Hd Ha Hr.
  rewrite (run_balance decodeAddress env w ev s b Hd Ha).
  split.
  - cbn [sent]. rewrite sent_onBalance, Hr.
    unfold balanceMessage, decimals, unit. rewrite Hdec, Hunit.
    cbn [balance balanceNumber]. now rewrite five_units.
  - unfold requests. cbn [filter isHttp]. f_equal.
    apply requests_onBalance.
Qed.

Lemma balance_of_five_units_witness :
  dispatched Sample.env (Sample.message "@alice:matrix.org" "!balance")
    "@alice:matrix.org" "!balance"
  /\ sent (run (Sample.world
                  (Resolved {| balance := BalanceStr "5000000000000" |})
                  Sample.noDrip)
             (onRoomTimeline Sample.decoder Sample.env
                (Sample.message "@alice:matrix.org" "!balance")))
     = [("!faucet:matrix.org", "The faucet has 5 UNITs remaining.")].
Proof.
  assert (dispatched Sample.env (Sample.message "@alice:matrix.org" "!balance")
            "@alice:matrix.org" "!balance") as Hd
    by (repeat split; reflexivity).
  split; [exact Hd|].
  apply (balance_of_five_units Sample.decoder Sample.env
           (Sample.world
              (Resolved {| balance := BalanceStr "5000000000000" |})
              Sample.noDrip)
           _ _ _ eq_refl eq_refl Hd eq_refl eq_refl).
Defined.

(** C10.  For a [!balance] command, a successful answer is never checked:
    whatever the balance field holds, the bot sends the formatted balance,
    which is not the generic error message; when the field is a string that
    is not numeric, the value shown is [NaN].  The generic error message is
    sent only when the request itself fails. *)
Theorem balance_is_not_validated
    (decodeAddress : string -> option (list Byte.byte)) (env : Env)
    (w : World) (ev : MatrixEvent) (s b : string) :
  dispatched env ev s b ->
  action b = "!balance" ->
  (forall t, balanceReply w = Resolved {| balance := BalanceStr t |} ->
     isNumericString t = false ->
     sent (run w (onRoomTimeline decodeAddress env ev))
     = [(getRoomId ev, "The faucet has NaN " ++ unit env ++ "s remaining.")])
  /\ (forall data, balanceReply w = Resolved data ->
        sent (run w (onRoomTimeline decodeAddress env ev))
        = [(getRoomId ev, balanceMessage env data)]
        /\ balanceMessage env data <> balanceErrorMessage)
  /\ (In (getRoomId ev, balanceErrorMessage)
         (sent (run w (onRoomTimeline decodeAddress env ev))) ->
      exists e, balanceReply w = Rejected e).
Proof.
  intros Hd Ha.
  rewrite (run_balance decodeAddress env w ev s b Hd Ha).
  cbn [sent]. rewrite sent_onBalance.
  split; [|split].
  - intros t Hr Hn. rewrite Hr. unfold balanceMessage.
    cbn [balance balanceNumber]. now rewrite (ofString_not_numeric t Hn).
  - intros data Hr. rewrite Hr. split; [reflexivity|].
    apply balanceMessage_not_error.
  - destruct (balanceReply w) as [data|e].
    + intros [H|[]]. injection H as H.
      now destruct (balanceMessage_not_error env data).
    + intros _. now exists e.
Qed.

Lemma balance_is_not_validated_witness :
  isNumericString "plenty" = false
  /\ sent (run (Sample.world (Resolved {| balance := BalanceStr "plenty" |})
                  Sample.noDrip)
             (onRoomTimeline Sample.decoder Sample.env
                (Sample.message "@alice:matrix.org" "!balance")))
     = [("!faucet:matrix.org", "The faucet has NaN UNITs remaining.")].
Proof.
  split; [reflexivity|].
  assert (dispatched Sample.env (Sample.message "@alice:matrix.org" "!balance")
            "@alice:matrix.org" "!balance") as Hd
    by (repeat split; reflexivity).
  destruct (balance_is_not_validated Sample.decoder Sample.env
              (Sample.world (Resolved {| balance := BalanceStr "plenty" |})
                 Sample.noDrip)
              _ _ _ Hd eq_refl) as (H & _ & _).
  exact (H "plenty" eq_refl eq_refl).
Defined.

Section Drip.

Variable decodeAddress : string -> option (list Byte.byte).
Variable env : Env.
Variable w : World.

Lemma sent_onDrip (room s : string) (amt : number)
    (res : response DripResponse) :
  sent (run w (onDrip env room s amt res))
  = [(room, match res with
            | Resolved data => dripMessage env s amt data
            | Rejected e => if truthy e then e else fallbackMessage
            end)].
Proof.
  destruct res; unfold onDrip.
  - apply sent_sendMessage.
  - apply sent_sendMessage_log.
Qed.

Lemma requests_onDrip (room s : string) (amt : number)
    (res : response DripResponse) :
  requests (run w (onDrip env room s amt res)) = [].
Proof.
  destruct res; unfold onDrip.
  - apply requests_sendMessage.
  - apply requests_sendMessage_log.
Qed.

(** The run of a [!drip] command whose address decodes. *)
Lemma run_drip (ev : MatrixEvent) (s b a0 : string)
    (bytes : list Byte.byte) :
  dispatched env ev s b -> action b = "!drip" ->
  arg0 b = Some a0 -> truthy a0 = true ->
  decodeAddress (addressOf a0) = Some bytes ->
  run w (onRoomTimeline decodeAddress env ev)
  = Log Debug ["Processing request from " ++ s]
      :: Log Debug ["Processed receiver to address " ++ addressOf a0
                    ++ " and parachain id " ++ parachainIdOf a0]
      :: HttpPost (baseURL env) "/bot-endpoint"
           (dripRequest env s a0 (arg1 b))
      :: run w (onDrip env (getRoomId ev) s (dripAmountFor env s (arg1 b))
                  (dripReply w (dripRequest env s a0 (arg1 b)))).
Proof.
  intros Hd Ha H0 Ht Hdec.
  rewrite (run_dispatched w decodeAddress env ev s b Hd).
  rewrite (dispatch_drip decodeAddress env _ s b Ha).
  unfold drip. now rewrite H0, Ht, Hdec.
Qed.

Lemma requests_drip (ev : MatrixEvent) (s b a0 : string)
    (bytes : list Byte.byte) :
  dispatched env ev s b -> action b = "!drip" ->
  arg0 b = Some a0 -> truthy a0 = true ->
  decodeAddress (addressOf a0) = Some bytes ->
  requests (run w (onRoomTimeline decodeAddress env ev))
  = [HttpPost (baseURL env) "/bot-endpoint" (dripRequest env s a0 (arg1 b))].
Proof.
  intros Hd Ha H0 Ht Hdec.
  rewrite (run_drip ev s b a0 bytes Hd Ha H0 Ht Hdec).
  unfold requests. cbn [filter isHttp]. f_equal. apply requests_onDrip.
Qed.

Lemma sent_drip (ev : MatrixEvent) (s b a0 : string)
    (bytes : list Byte.byte) :
  dispatched env ev s b -> action b = "!drip" ->
  arg0 b = Some a0 -> truthy a0 = true ->
  decodeAddress (addressOf a0) = Some bytes ->
  sent (run w (onRoomTimeline decodeAddress env ev))
  = [(getRoomId ev,
      match dripReply w (dripRequest env s a0 (arg1 b)) with
      | Resolved data => dripMessage env s (dripAmountFor env s (arg1 b)) data
      | Rejected e => if truthy e then e else fallbackMessage
      end)].
Proof.
  intros Hd Ha H0 Ht Hdec.
  rewrite (run_drip ev s b a0 bytes Hd Ha H0 Ht Hdec).
  cbn [sent]. apply sent_onDrip.
Qed.

End Drip.

(** The two parts of a first argument of the form [address:parachain]. *)
Lemma address_and_parachain (a0 addr pid : string) :
  lacks ":" addr = true -> lacks ":" pid = true ->
  trim a0 = addr ++ ":" ++ pid ->
  addressOf a0 = addr /\ parachainIdOf a0 = pid.
Proof.
  intros Ha Hp Ht. unfold addressOf, parachainIdOf. rewrite Ht.
  change (addr ++ ":" ++ pid) with (addr ++ String ":" pid).
  rewrite (split_pair ":" addr pid Ha Hp). cbn [hd nth_error].
  split; [reflexivity|]. now destruct pid.
Qed.

Lemma address_alone (a0 addr : string) :
  lacks ":" addr = true -> trim a0 = addr ->
  addressOf a0 = addr /\ parachainIdOf a0 = "".
Proof.
  intros Ha Ht. unfold addressOf, parachainIdOf. rewrite Ht.
  rewrite (split_lacks ":" addr Ha). now split.
Qed.

(** C4.  A [!drip] command whose address does not decode is answered with
    "<sender> provided an incompatible address." and causes no request to
    the backend. *)
Theorem undecodable_address_is_refused
    (decodeAddress : string -> option (list Byte.byte)) (env : Env)
    (w : World) (ev : MatrixEvent) (s b a0 : string) :
  dispatched env ev s b ->
  action b = "!drip" ->
  arg0 b = Some a0 ->
  truthy a0 = true ->
  decodeAddress (addressOf a0) = None ->
  sent (run w (onRoomTimeline decodeAddress env ev))
  = [(getRoomId ev, s ++ " provided an incompatible address.")]
  /\ requests (run w (onRoomTimeline decodeAddress env ev)) = [].
Proof.
  intros Hd Ha H0 Ht Hdec.
  rewrite (run_dispatched w decodeAddress env ev s b Hd).
  rewrite (dispatch_drip decodeAddress env _ s b Ha).
  unfold drip. rewrite H0, Ht, Hdec. cbn [negb run sent].
  split.
  - apply sent_sendMessage.
  - unfold requests. cbn [filter isHttp]. apply requests_sendMessage.
Qed.

Lemma undecodable_address_is_refused_witness :
  Sample.decoder (addressOf "5ABC") = None
  /\ sent (run (Sample.world Sample.noBalance Sample.noDrip)
             (onRoomTimeline Sample.decoder Sample.env
                (Sample.message "@alice:matrix.org" "!drip 5ABC")))
     = [("!faucet:matrix.org",
         "@alice:matrix.org provided an incompatible address.")]
  /\ requests (run (Sample.world Sample.noBalance Sample.noDrip)
                 (onRoomTimeline Sample.decoder Sample.env
                    (Sample.message "@alice:matrix.org" "!drip 5ABC"))) = [].
Proof.
  split; [reflexivity|].
  assert (dispatched Sample.env
            (Sample.message "@alice:matrix.org" "!drip 5ABC")
            "@alice:matrix.org" "!drip 5ABC") as Hd
    by (repeat split; reflexivity).
  exact (undecodable_address_is_refused Sample.decoder Sample.env
           (Sample.world Sample.noBalance Sample.noDrip) _ _ _ "5ABC"
           Hd eq_refl eq_refl eq_refl eq_refl).
Defined.

(** C5.  For a [!drip] command whose first argument is [address:suffix],
    with an address that decodes, the object posted to [/bot-endpoint]
    holds the address, the amount, the suffix as [parachain_id] and the
    sender; without a suffix, [parachain_id] is the empty string. *)
Theorem parachain_id_is_forwarded
    (decodeAddress : string -> option (list Byte.byte)) (env : Env)
    (w : World) (ev : MatrixEvent) (s b a0 addr : string)
    (bytes : list Byte.byte) :
  dispatched env ev s b ->
  action b = "!drip" ->
  arg0 b = Some a0 ->
  truthy a0 = true ->
  lacks ":" addr = true ->
  decodeAddress addr = Some bytes ->
  (forall pid, lacks ":" pid = true -> trim a0 = addr ++ ":" ++ pid ->
     requests (run w (onRoomTimeline decodeAddress env ev))
     = [HttpPost (baseURL env) "/bot-endpoint"
          {| address := addr;
             amount := dripAmountFor env s (arg1 b);
             parachain_id := pid;
             sender := s |}])
  /\ (trim a0 = addr ->
      requests (run w (onRoomTimeline decodeAddress env ev))
      = [HttpPost (baseURL env) "/bot-endpoint"
           {| address := addr;
              amount := dripAmountFor env s (arg1 b);
              parachain_id := "";
              sender := s |}]).
Proof.
  intros Hd Ha H0 Ht Hl Hdec. split.
  - intros pid Hp Htrim.
    destruct (address_and_parachain a0 addr pid Hl Hp Htrim) as [Haddr Hpid].
    rewrite <- Haddr in Hdec.
    rewrite (requests_drip decodeAddress env w ev s b a0 bytes Hd Ha H0 Ht Hdec).
    unfold dripRequest. now rewrite Haddr, Hpid.
  - intros Htrim.
    destruct (address_alone a0 addr Hl Htrim) as [Haddr Hpid].
    rewrite <- Haddr in Hdec.
    rewrite (requests_drip decodeAddress env w ev s b a0 bytes Hd Ha H0 Ht Hdec).
    unfold dripRequest. now rewrite Haddr, Hpid.
Qed.

Lemma parachain_id_is_forwarded_witness :
  requests (run (Sample.world Sample.noBalance Sample.noDrip)
              (onRoomTimeline Sample.decoder Sample.env
                 (Sample.message "@alice:matrix.org"
                    ("!drip " ++ Sample.alice ++ ":2000"))))
  = [HttpPost "http://localhost:5555" "/bot-endpoint"
       {| address := Sample.alice;
          amount := DRIP_AMOUNT Sample.env;
          parachain_id := "2000";
          sender := "@alice:matrix.org" |}].
Proof.
  assert (dispatched Sample.env
            (Sample.message "@alice:matrix.org"
               ("!drip " ++ Sample.alice ++ ":2000"))
            "@alice:matrix.org" ("!drip " ++ Sample.alice ++ ":2000")) as Hd
    by (repeat split; reflexivity).
  destruct (parachain_id_is_forwarded Sample.decoder Sample.env
              (Sample.world Sample.noBalance Sample.noDrip) _ _ _
              (Sample.alice ++ ":2000") Sample.alice []
              Hd eq_refl eq_refl eq_refl eq_refl eq_refl) as [H _].
  exact (H "2000" eq_refl eq_refl).
Defined.

(** C2.  For a [!drip] command with a third token, the amount posted to the
    backend is the number the token is coerced to only when the sender's
    identifier ends with [:matrix.parity.io] (and the token is not empty);
    for every other sender it is the configured default amount. *)
Theorem override_needs_trusted_sender
    (decodeAddress : string -> option (list Byte.byte)) (env : Env)
    (w : World) (ev : MatrixEvent) (s b a0 a1 : string)
    (bytes : list Byte.byte) :
  dispatched env ev s b ->
  action b = "!drip" ->
  arg0 b = Some a0 ->
  truthy a0 = true ->
  decodeAddress (addressOf a0) = Some bytes ->
  arg1 b = Some a1 ->
  requests (run w (onRoomTimeline decodeAddress env ev))
  = [HttpPost (baseURL env) "/bot-endpoint"
       {| address := addressOf a0;
          amount := if endsWith s ":matrix.parity.io" && truthy a1
                    then ofString a1
                    else defaultDripAmount env;
          parachain_id := parachainIdOf a0;
          sender := s |}].
Proof.
  intros Hd Ha H0 Ht Hdec H1.
  rewrite (requests_drip decodeAddress env w ev s b a0 bytes Hd Ha H0 Ht Hdec).
  unfold dripRequest, dripAmountFor, trustedSuffix. now rewrite H1.
Qed.

Lemma override_needs_trusted_sender_witness :
  requests (run (Sample.world Sample.noBalance Sample.noDrip)
              (onRoomTimeline Sample.decoder Sample.env
                 (Sample.message "@alice:matrix.org"
                    ("!drip " ++ Sample.alice ++ " 7"))))
  = [HttpPost "http://localhost:5555" "/bot-endpoint"
       {| address := Sample.alice;
          amount := DRIP_AMOUNT Sample.env;
          parachain_id := "";
          sender := "@alice:matrix.org" |}]
  /\ requests (run (Sample.world Sample.noBalance Sample.noDrip)
                 (onRoomTimeline Sample.decoder Sample.env
                    (Sample.message "@bob:matrix.parity.io"
                       ("!drip " ++ Sample.alice ++ " 7"))))
     = [HttpPost "http://localhost:5555" "/bot-endpoint"
          {| address := Sample.alice;
             amount := ofString "7";
             parachain_id := "";
             sender := "@bob:matrix.parity.io" |}].
Proof.
  assert (forall s, truthy s = true ->
            String.eqb s (botUserId Sample.env) = false ->
            includes (ignoreList Sample.env) s = false ->
            dispatched Sample.env
              (Sample.message s ("!drip " ++ Sample.alice ++ " 7"))
              s ("!drip " ++ Sample.alice ++ " 7")) as Hd
    by (intros s H1 H2 H3; repeat split; assumption).
  split.
  - exact (override_needs_trusted_sender Sample.decoder Sample.env
             (Sample.world Sample.noBalance Sample.noDrip) _ _ _
             Sample.alice "7" []
             (Hd "@alice:matrix.org" eq_refl eq_refl eq_refl)
             eq_refl eq_refl eq_refl eq_refl eq_refl).
  - exact (override_needs_trusted_sender Sample.decoder Sample.env
             (Sample.world Sample.noBalance Sample.noDrip) _ _ _
             Sample.alice "7" []
             (Hd "@bob:matrix.parity.io" eq_refl eq_refl eq_refl)
             eq_refl eq_refl eq_refl eq_refl eq_refl).
Defined.

(** C9.  When a sender whose identifier ends with [:matrix.parity.io] gives
    [!drip] a third token that is not numeric, the override is applied all
    the same: the amount posted to the backend is [NaN]. *)
Theorem trusted_override_is_not_validated
    (decodeAddress : string -> option (list Byte.byte)) (env : Env)
    (w : World) (ev : MatrixEvent) (s b a0 a1 : string)
    (bytes : list Byte.byte) :
  dispatched env ev s b ->
  action b = "!drip" ->
  arg0 b = Some a0 ->
  truthy a0 = true ->
  decodeAddress (addressOf a0) = Some bytes ->
  arg1 b = Some a1 ->
  endsWith s ":matrix.parity.io" = true ->
  isNumericString a1 = false ->
  requests (run w (onRoomTimeline decodeAddress env ev))
  = [HttpPost (baseURL env) "/bot-endpoint"
       {| address := addressOf a0;
          amount := NaN;
          parachain_id := parachainIdOf a0;
          sender := s |}].
Proof.
  intros Hd Ha H0 Ht Hdec H1 Hs Hn.
  rewrite (requests_drip decodeAddress env w ev s b a0 bytes Hd Ha H0 Ht Hdec).
  unfold dripRequest, dripAmountFor, trustedSuffix. rewrite H1, Hs.
  assert (truthy a1 = true) as Ht1 by (now destruct a1).
  now rewrite Ht1, (ofString_not_numeric a1 Hn).
Qed.

Lemma trusted_override_is_not_validated_witness :
  isNumericString "lots" = false
  /\ requests (run (Sample.world Sample.noBalance Sample.noDrip)
                 (onRoomTimeline Sample.decoder Sample.env
                    (Sample.message "@bob:matrix.parity.io"
                       ("!drip " ++ Sample.alice ++ " lots"))))
     = [HttpPost "http://localhost:5555" "/bot-endpoint"
          {| address := Sample.alice;
             amount := NaN;
             parachain_id := "";
             sender := "@bob:matrix.parity.io" |}].
Proof.
  split; [reflexivity|].
  assert (dispatched Sample.env
            (Sample.message "@bob:matrix.parity.io"
               ("!drip " ++ Sample.alice ++ " lots"))
            "@bob:matrix.parity.io" ("!drip " ++ Sample.alice ++ " lots"))
    as Hd by (repeat split; reflexivity).
  exact (trusted_override_is_not_validated Sample.decoder Sample.env
           (Sample.world Sample.noBalance Sample.noDrip) _ _ _
           Sample.alice "lots" []
           Hd eq_refl eq_refl eq_refl eq_refl eq_refl eq_refl eq_refl).
Defined.

(** C1.  When the backend answers a drip with a hash that is empty or
    [null], the bot takes the answer for a failure: its reply is the error
    message of the answer when there is a non-empty one, and the generic
    fallback otherwise (in particular when the answer has no error field),
    and the fallback is not the confirmation of a drip. *)
Theorem empty_hash_is_a_failure
    (decodeAddress : string -> option (list Byte.byte)) (env : Env)
    (w : World) (ev : MatrixEvent) (s b a0 : string)
    (bytes : list Byte.byte) (data : DripResponse) :
  dispatched env ev s b ->
  action b = "!drip" ->
  arg0 b = Some a0 ->
  truthy a0 = true ->
  decodeAddress (addressOf a0) = Some bytes ->
  dripReply w (dripRequest env s a0 (arg1 b)) = Resolved data ->
  hash data = Str "" \/ hash data = Null ->
  isDripSuccessResponse data = false
  /\ sent (run w (onRoomTimeline decodeAddress env ev))
     = [(getRoomId ev,
         match error data with
         | Str e => if truthy e then e else fallbackMessage
         | _ => fallbackMessage
         end)]
  /\ (error data = Absent ->
      sent (run w (onRoomTimeline decodeAddress env ev))
      = [(getRoomId ev, fallbackMessage)])
  /\ fallbackMessage
     <> successMessage env s (dripAmountFor env s (arg1 b)) data.
Proof.
  intros Hd Ha H0 Ht Hdec Hr Hh.
  assert (isDripSuccessResponse data = false) as Hg
    by (unfold isDripSuccessResponse; now destruct Hh as [-> | ->]).
  rewrite (sent_drip decodeAddress env w ev s b a0 bytes Hd Ha H0 Ht Hdec).
  rewrite Hr. unfold dripMessage. rewrite Hg.
  split; [reflexivity|]. split; [reflexivity|]. split.
  - intros He. now rewrite He.
  - unfold fallbackMessage, successMessage. cbn [append]. discriminate.
Qed.

Lemma empty_hash_is_a_failure_witness :
  sent (run (Sample.world Sample.noBalance
               (Resolved {| hash := Str ""; error := Absent |}))
          (onRoomTimeline Sample.decoder Sample.env
             (Sample.message "@alice:matrix.org" ("!drip " ++ Sample.alice))))
  = [("!faucet:matrix.org",
      "An unexpected error occured, please check the server logs")]
  /\ sent (run (Sample.world Sample.noBalance
                  (Resolved {| hash := Null; error := Str "Faucet is dry" |}))
             (onRoomTimeline Sample.decoder Sample.env
                (Sample.message "@alice:matrix.org"
                   ("!drip " ++ Sample.alice))))
     = [("!faucet:matrix.org", "Faucet is dry")].
Proof.
  assert (dispatched Sample.env
            (Sample.message "@alice:matrix.org" ("!drip " ++ Sample.alice))
            "@alice:matrix.org" ("!drip " ++ Sample.alice)) as Hd
    by (repeat split; reflexivity).
  split.
  - exact (proj1 (proj2
      (empty_hash_is_a_failure Sample.decoder Sample.env
         (Sample.world Sample.noBalance
            (Resolved {| hash := Str ""; error := Absent |}))
         _ _ _ Sample.alice [] _
         Hd eq_refl eq_refl eq_refl eq_refl eq_refl (or_introl eq_refl)))).
  - exact (proj1 (proj2
      (empty_hash_is_a_failure Sample.decoder Sample.env
         (Sample.world Sample.noBalance
            (Resolved {| hash := Null; error := Str "Faucet is dry" |}))
         _ _ _ Sample.alice [] _
         Hd eq_refl eq_refl eq_refl eq_refl eq_refl (or_intror eq_refl)))).
Defined.

End BotFacts.

(** ** More on the string primitives *)

Module JsStringMore.

Import JsString Lifecycle JsStringFacts.

Local Open Scope string_scope.

(** No field of a split holds the separator. *)
Lemma split_fields_lack (sep : ascii) (s : string) :
  Forall (fun x => lacks sep x = true) (split sep s).
Proof.
  induction s as [|c r IH]; simpl.
  - now repeat constructor.
  - destruct (Ascii.eqb c sep) eqn:Hc.
    + now constructor.
    + destruct (split sep r) as [|h t].
      * repeat constructor. simpl. now rewrite Hc.
      * inversion IH as [|? ? Hh Ht]; subst. constructor; [|exact Ht].
        simpl. now rewrite Hc, Hh.
Qed.

(** A split has one field more than the string has separators. *)
Lemma split_length (sep : ascii) (s : string) :
  List.length (split sep s) = S (occurrences sep s).
Proof.
  induction s as [|c r IH]; simpl.
  - reflexivity.
  - destruct (Ascii.eqb c sep).
    + simpl. now rewrite IH.
    + destruct (split sep r) as [|h t]; [discriminate IH|exact IH].
Qed.

(** Joining the fields of a split gives the string back. *)
Lemma concat_split (sep : ascii) (s : string) :
  String.concat (String sep EmptyString) (split sep s) = s.
Proof.
  induction s as [|c r IH]; simpl.
  - reflexivity.
  - pose proof (split_length sep r) as Hl.
    destruct (Ascii.eqb c sep) eqn:Hc.
    + apply Ascii.eqb_eq in Hc. subst c.
      destruct (split sep r) as [|h t]; [discriminate Hl|].
      change (String.concat (String sep "") ("" :: h :: t))
        with (String sep (String.concat (String sep "") (h :: t))).
      now rewrite IH.
    + destruct (split sep r) as [|h t]; [discriminate Hl|].
      destruct t as [|x xs].
      * simpl in IH |- *. now rewrite IH.
      * change (String.concat (String sep "") (String c h :: x :: xs))
          with (String c (String.concat (String sep "") (h :: x :: xs))).
        now rewrite IH.
Qed.

(** Only the first two fields of a string with two separators or more. *)
Lemma split_first_two (sep : ascii) (a b r : string) :
  lacks sep a = true -> lacks sep b = true ->
  split sep (a ++ String sep (b ++ String sep r)) = a :: b :: split sep r.
Proof.
  intros Ha Hb. now rewrite (split_app _ _ _ Ha), (split_app _ _ _ Hb).
Qed.

Lemma length_app (a b : string) :
  String.length (a ++ b) = String.length a + String.length b.
Proof. induction a as [|c a IH]; simpl; [reflexivity | now rewrite IH]. Qed.

Lemma substring_whole (p : string) : substring 0 (String.length p) p = p.
Proof. induction p as [|c p IH]; simpl; [reflexivity | now rewrite IH]. Qed.

Lemma substring_skip (a p : string) :
  substring (String.length a) (String.length p) (a ++ p) = p.
Proof.
  induction a as [|c a IH]; simpl; [apply substring_whole | exact IH].
Qed.

(** A string is what comes before a position followed by what comes after. *)
Lemma substring_cut (s : string) (k : nat) :
  k <= String.length s ->
  s = substring 0 k s ++ substring k (String.length s - k) s.
Proof.
  revert k. induction s as [|c s IH]; intros k Hk.
  - simpl in Hk. assert (k = 0) by lia. subst k. reflexivity.
  - destruct k as [|k].
    + cbn [substring append]. simpl. now rewrite substring_whole.
    + simpl in Hk. cbn [substring String.length Nat.sub append].
      f_equal. apply IH. lia.
Qed.

(** [s.endsWith(p)] holds exactly when [s] is something followed by [p]. *)
Lemma endsWith_iff (s p : string) :
  endsWith s p = true <-> exists a, s = a ++ p.
Proof.
  unfold endsWith. split.
  - intros H. apply andb_prop in H. destruct H as [Hl He].
    apply Nat.leb_le in Hl. apply String.eqb_eq in He.
    exists (substring 0 (String.length s - String.length p) s).
    assert (String.length s - String.length p <= String.length s) as Hk
      by lia.
    pose proof (substring_cut s _ Hk) as Hc.
    replace (String.length s - (String.length s - String.length p))
      with (String.length p) in Hc by lia.
    now rewrite He in Hc.
  - intros [a ->]. rewrite length_app. apply andb_true_intro. split.
    + apply Nat.leb_le. lia.
    + replace (String.length a + String.length p - String.length p)
        with (String.length a) by lia.
      rewrite substring_skip. apply String.eqb_refl.
Qed.

(** Trimming leaves a string without white space as it is. *)
Lemma trim_solid (s : string) : solid s = true -> trim s = s.
Proof.
  intros H. unfold trim.
  assert (trimStart s = s) as ->.
  { destruct s as [|c r]; [reflexivity|]. simpl in H |- *.
    apply andb_prop in H. destruct H as [Hc _].
    apply negb_true_iff in Hc. now rewrite Hc. }
  induction s as [|c r IH]; [reflexivity|].
  simpl in H. apply andb_prop in H. destruct H as [Hc Hr].
  apply negb_true_iff in Hc. cbn [trimEnd]. rewrite (IH Hr).
  destruct r; [now rewrite Hc | reflexivity].
Qed.

End JsStringMore.

(** ** What every run of the handler looks like *)

Module Conformance.

Import JsString JsNumber Bot Lifecycle JsStringFacts JsStringMore BotFacts.

Local Open Scope string_scope.

Section Runs.

Variable w : World.

Lemma Forall_andThen (P : obs -> Prop) (p q : proc) :
  Forall P (run w p) -> Forall P (run w q) -> Forall P (run w (andThen p q)).
Proof.
  intros Hp Hq. induction p as [|e|l a k IH|r t m mt k IH|u pa k IH|u pa d k IH];
    simpl in Hp |- *.
  - exact Hq.
  - exact Hp.
  - inversion Hp; subst. constructor; auto.
  - inversion Hp; subst. constructor; auto.
  - inversion Hp; subst. constructor; auto.
  - inversion Hp; subst. constructor; auto.
Qed.

Lemma Forall_logFailure (P : obs -> Prop) (e : option string) :
  (forall a, P (Log Error a)) -> Forall P (run w (logFailure e)).
Proof. intros HP. destruct e; simpl; repeat constructor; apply HP. Qed.

(** A message sent, whatever becomes of it, adds one [SendEvent] and log
    entries to what the caller does next. *)
Lemma Forall_sendMessage (P : obs -> Prop) (room msg : string) (k : proc) :
  (forall a, P (Log Error a)) ->
  P (SendEvent room "m.room.message" msg "m.text") ->
  Forall P (run w k) ->
  Forall P (run w (sendMessage room msg k)).
Proof.
  intros HL HS Hk. unfold sendMessage. simpl. constructor; [exact HS|].
  apply Forall_andThen; [exact Hk|].
  apply Forall_andThen; apply Forall_logFailure; exact HL.
Qed.

Variable decodeAddress : string -> option (list Byte.byte).
Variable env : Env.

Lemma addressOf_lacks (a0 : string) : lacks ":" (addressOf a0) = true.
Proof.
  unfold addressOf. pose proof (split_fields_lack ":" (trim a0)) as H.
  destruct (split ":" (trim a0)) as [|h t]; [reflexivity|].
  exact (Forall_inv H).
Qed.

Lemma parachainIdOf_lacks (a0 : string) : lacks ":" (parachainIdOf a0) = true.
Proof.
  unfold parachainIdOf. pose proof (split_fields_lack ":" (trim a0)) as H.
  destruct (split ":" (trim a0)) as [|h [|p t]]; try reflexivity.
  cbn [nth_error]. destruct (truthy p); [|reflexivity].
  exact (Forall_inv (Forall_inv_tail H)).
Qed.

Lemma expected_log (ev : MatrixEvent) (l : level) (a : list string) :
  expected decodeAddress env ev (Log l a).
Proof. exact I. Qed.

Lemma expected_send (ev : MatrixEvent) (msg : string) :
  expected decodeAddress env ev
    (SendEvent (getRoomId ev) "m.room.message" msg "m.text").
Proof. now repeat split. Qed.

Lemma expected_reply (ev : MatrixEvent) (msg : string) (k : proc) :
  Forall (expected decodeAddress env ev) (run w k) ->
  Forall (expected decodeAddress env ev)
    (run w (sendMessage (getRoomId ev) msg k)).
Proof.
  apply Forall_sendMessage; [intros a; apply expected_log | apply expected_send].
Qed.

Lemma expected_dispatch (ev : MatrixEvent) (s b : string) :
  getSender ev = Some s ->
  Forall (expected decodeAddress env ev)
    (run w (dispatch decodeAddress env (getRoomId ev) s b)).
Proof.
  intros Hs. unfold dispatch.
  destruct (String.eqb (action b) "!balance").
  { simpl. constructor; [now split|].
    destruct (balanceReply w); unfold onBalance; apply expected_reply.
    - constructor.
    - repeat constructor. }
  destruct (String.eqb (action b) "!drip").
  { unfold drip. destruct (arg0 b) as [a0|]; [|repeat constructor].
    destruct (truthy a0); [|repeat constructor].
    cbn [negb run]. constructor; [exact I|].
    destruct (decodeAddress (addressOf a0)) eqn:Hdec.
    - cbn [run]. constructor.
      + cbn [expected dripRequest address parachain_id sender].
        repeat split; try assumption.
        * now rewrite Hdec.
        * apply addressOf_lacks.
        * apply parachainIdOf_lacks.
      + destruct (dripReply w _); unfold onDrip; apply expected_reply.
        * constructor.
        * repeat constructor.
    - apply expected_reply. constructor. }
  destruct (String.eqb (action b) "!help").
  { unfold printHelpMessage. apply expected_reply. constructor. }
  destruct (startsWith (action b) "!").
  { unfold printHelpMessage. apply expected_reply. constructor. }
  constructor.
Qed.

(** Every observable event of every run is as [expected] says. *)
Lemma run_expected (ev : MatrixEvent) :
  Forall (expected decodeAddress env ev)
    (run w (onRoomTimeline decodeAddress env ev)).
Proof.
  unfold onRoomTimeline.
  destruct (negb (String.eqb (getType ev) "m.room.message")); [constructor|].
  destruct (getSender ev) as [s|] eqn:Hs; [|constructor].
  destruct (negb (truthy s) || String.eqb s (botUserId env))%bool;
    [constructor|].
  destruct (includes (ignoreList env) s); [repeat constructor|].
  cbn [run]. constructor; [exact I|].
  destruct (body ev) as [b|] eqn:Hb.
  - apply expected_dispatch. exact Hs.
  - repeat constructor. exact Hb.
Qed.

(** A command leads to one chat message at most, and one request at most. *)
Lemma dispatch_at_most_one (room s b : string) :
  List.length (sent (run w (dispatch decodeAddress env room s b))) <= 1
  /\ List.length (requests (run w (dispatch decodeAddress env room s b))) <= 1.
Proof.
  unfold dispatch.
  destruct (String.eqb (action b) "!balance").
  { cbn [run sent]. unfold requests. cbn [filter isHttp].
    rewrite sent_onBalance.
    change (filter isHttp (run w (onBalance env room (balanceReply w))))
      with (requests (run w (onBalance env room (balanceReply w)))).
    rewrite requests_onBalance. simpl. lia. }
  destruct (String.eqb (action b) "!drip").
  { unfold drip. destruct (arg0 b) as [a0|]; [|simpl; lia].
    destruct (truthy a0); [|simpl; lia].
    cbn [negb run sent]. unfold requests. cbn [filter isHttp].
    destruct (decodeAddress (addressOf a0)).
    - cbn [run sent filter isHttp]. rewrite sent_onDrip.
      match goal with
      | |- context [filter isHttp (run w ?p)] =>
          change (filter isHttp (run w p)) with (requests (run w p))
      end.
      rewrite requests_onDrip. simpl. lia.
    - rewrite sent_sendMessage.
      match goal with
      | |- context [filter isHttp (run w ?p)] =>
          change (filter isHttp (run w p)) with (requests (run w p))
      end.
      rewrite requests_sendMessage. simpl. lia. }
  assert (forall m,
    List.length (sent (run w (printHelpMessage env room m))) <= 1
    /\ List.length (requests (run w (printHelpMessage env room m))) <= 1) as Hh.
  { intros m. unfold printHelpMessage.
    rewrite sent_sendMessage, requests_sendMessage. simpl. lia. }
  destruct (String.eqb (action b) "!help"); [apply Hh|].
  destruct (startsWith (action b) "!"); [apply Hh|].
  simpl. lia.
Qed.

End Runs.

(** X1.  An event that is not a text message, or has no sender, or whose
    sender is empty or the bot itself, has no effect at all: nothing is
    logged, asked or sent. *)
Theorem foreign_and_own_events_are_silent
    (decodeAddress : string -> option (list Byte.byte)) (env : Env)
    (w : World) (ev : MatrixEvent) :
  getType ev <> "m.room.message" \/ getSender ev = None
  \/ getSender ev = Some "" \/ getSender ev = Some (botUserId env) ->
  run w (onRoomTimeline decodeAddress env ev) = [].
Proof.
  unfold onRoomTimeline. intros [H|[H|[H|H]]].
  - apply String.eqb_neq in H. now rewrite H.
  - rewrite H. now destruct (negb _).
  - rewrite H. now destruct (negb _).
  - rewrite H, String.eqb_refl, orb_true_r. now destruct (negb _).
Qed.

Lemma foreign_and_own_events_are_silent_witness :
  run (Sample.world
         (Resolved {| balance := BalanceStr "5000000000000" |}) Sample.noDrip)
      (onRoomTimeline Sample.decoder Sample.env
         (Sample.message "@faucet:matrix.org" "!balance")) = [].
Proof.
  apply (foreign_and_own_events_are_silent Sample.decoder Sample.env).
  right. right. right. reflexivity.
Defined.

(** X2.  Whatever the event and whatever the outside world answers, a run
    holds one chat message at most and one request to the backend at most:
    nothing is retried. *)
Theorem at_most_one_reply_and_one_request
    (decodeAddress : string -> option (list Byte.byte)) (env : Env)
    (w : World) (ev : MatrixEvent) :
  List.length (sent (run w (onRoomTimeline decodeAddress env ev))) <= 1
  /\ List.length (requests (run w (onRoomTimeline decodeAddress env ev))) <= 1.
Proof.
  unfold onRoomTimeline.
  destruct (negb (String.eqb (getType ev) "m.room.message")); [simpl; lia|].
  destruct (getSender ev) as [s|]; [|simpl; lia].
  destruct (negb (truthy s) || String.eqb s (botUserId env))%bool;
    [simpl; lia|].
  destruct (includes (ignoreList env) s); [simpl; lia|].
  destruct (body ev) as [b|]; [|simpl; lia].
  cbn [run sent]. unfold requests. cbn [filter isHttp].
  apply dispatch_at_most_one.
Qed.

(** X3.  Every chat message of a run goes to the room the event came from,
    as an [m.room.message] event of type [m.text]. *)
Theorem replies_go_to_the_room_of_the_event
    (decodeAddress : string -> option (list Byte.byte)) (env : Env)
    (w : World) (ev : MatrixEvent) (room eventType msg msgtype : string) :
  In (SendEvent room eventType msg msgtype)
     (run w (onRoomTimeline decodeAddress env ev)) ->
  room = getRoomId ev /\ eventType = "m.room.message" /\ msgtype = "m.text".
Proof.
  intros H.
  pose proof (run_expected w decodeAddress env ev) as Hall.
  rewrite Forall_forall in Hall. exact (Hall _ H).
Qed.

Lemma replies_go_to_the_room_of_the_event_witness :
  In (SendEvent "!faucet:matrix.org" "m.room.message"
        (helpText Sample.env) "m.text")
     (run (Sample.world Sample.noBalance Sample.noDrip)
        (onRoomTimeline Sample.decoder Sample.env
           (Sample.message "@alice:matrix.org" "!help")))
  /\ "!faucet:matrix.org"
      = getRoomId (Sample.message "@alice:matrix.org" "!help").
Proof.
  assert (In (SendEvent "!faucet:matrix.org" "m.room.message"
                (helpText Sample.env) "m.text")
             (run (Sample.world Sample.noBalance Sample.noDrip)
                (onRoomTimeline Sample.decoder Sample.env
                   (Sample.message "@alice:matrix.org" "!help")))) as Hin
    by (right; left; reflexivity).
  split; [exact Hin|].
  exact (proj1 (replies_go_to_the_room_of_the_event Sample.decoder Sample.env
                  _ _ _ _ _ _ Hin)).
Defined.

(** X4.  Every POST of a run goes to [/bot-endpoint] of the configured
    backend, names the sender of the event, and carries an address that
    [decodeAddress] accepted; neither the address nor the parachain id
    holds a colon. *)
Theorem posts_are_validated
    (decodeAddress : string -> option (list Byte.byte)) (env : Env)
    (w : World) (ev : MatrixEvent) (u p : string) (d : DripRequest) :
  In (HttpPost u p d) (run w (onRoomTimeline decodeAddress env ev)) ->
  u = baseURL env /\ p = "/bot-endpoint"
  /\ getSender ev = Some (sender d)
  /\ decodeAddress (address d) <> None
  /\ lacks ":" (address d) = true
  /\ lacks ":" (parachain_id d) = true.
Proof.
  intros H.
  pose proof (run_expected w decodeAddress env ev) as Hall.
  rewrite Forall_forall in Hall. exact (Hall _ H).
Qed.

Lemma posts_are_validated_witness :
  In (HttpPost "http://localhost:5555" "/bot-endpoint"
        {| address := Sample.alice; amount := DRIP_AMOUNT Sample.env;
           parachain_id := "2000"; sender := "@alice:matrix.org" |})
     (run (Sample.world Sample.noBalance Sample.noDrip)
        (onRoomTimeline Sample.decoder Sample.env
           (Sample.message "@alice:matrix.org"
              ("!drip " ++ Sample.alice ++ ":2000 3"))))
  /\ Sample.decoder Sample.alice <> None
  /\ lacks ":" Sample.alice = true
  /\ lacks ":" "2000" = true.
Proof.
  assert (In (HttpPost "http://localhost:5555" "/bot-endpoint"
                {| address := Sample.alice; amount := DRIP_AMOUNT Sample.env;
                   parachain_id := "2000"; sender := "@alice:matrix.org" |})
             (run (Sample.world Sample.noBalance Sample.noDrip)
                (onRoomTimeline Sample.decoder Sample.env
                   (Sample.message "@alice:matrix.org"
                      ("!drip " ++ Sample.alice ++ ":2000 3"))))) as Hin
    by (right; right; left; reflexivity).
  split; [exact Hin|].
  exact (proj2 (proj2 (proj2
    (posts_are_validated Sample.decoder Sample.env _ _ _ _ _ Hin)))).
Defined.

(** X5.  The backend is asked only on behalf of a sender that passed the
    filters, and only for [!balance] or [!drip]. *)
Theorem requests_need_a_command
    (decodeAddress : string -> option (list Byte.byte)) (env : Env)
    (w : World) (ev : MatrixEvent) :
  requests (run w (onRoomTimeline decodeAddress env ev)) <> [] ->
  exists s b, dispatched env ev s b
              /\ (action b = "!balance" \/ action b = "!drip").
Proof.
  unfold onRoomTimeline, dispatched.
  destruct (String.eqb (getType ev) "m.room.message") eqn:Ht;
    [|now intros []].
  apply String.eqb_eq in Ht.
  destruct (getSender ev) as [s|]; [|now intros []].
  destruct (truthy s) eqn:Hs; [|now intros []].
  destruct (String.eqb s (botUserId env)) eqn:Hb; [now intros []|].
  destruct (includes (ignoreList env) s) eqn:Hi; [now intros []|].
  destruct (body ev) as [b|]; [|now intros []].
  cbn [negb orb run]. unfold requests. cbn [filter isHttp].
  intros H. exists s, b. repeat split; try assumption.
  unfold dispatch in H.
  destruct (String.eqb (action b) "!balance") eqn:H1;
    [left; now apply String.eqb_eq|].
  destruct (String.eqb (action b) "!drip") eqn:H2;
    [right; now apply String.eqb_eq|].
  exfalso. apply H.
  destruct (String.eqb (action b) "!help");
    [apply (requests_sendMessage w)|].
  destruct (startsWith (action b) "!");
    [apply (requests_sendMessage w) | reflexivity].
Qed.

Lemma requests_need_a_command_witness :
  exists s b,
    dispatched Sample.env (Sample.message "@alice:matrix.org" "!balance") s b
    /\ (action b = "!balance" \/ action b = "!drip").
Proof.
  apply (requests_need_a_command Sample.decoder Sample.env
           (Sample.world Sample.noBalance Sample.noDrip)).
  discriminate.
Defined.

(** X6.  The handler throws exactly when a text message that passed the
    filters has no text body; the exception comes after the debug entry,
    and nothing has been asked or sent. *)
Theorem throws_exactly_without_body
    (decodeAddress : string -> option (list Byte.byte)) (env : Env)
    (w : World) (ev : MatrixEvent) :
  ((exists e, In (Uncaught e) (run w (onRoomTimeline decodeAddress env ev)))
   <-> (exists s, getType ev = "m.room.message" /\ getSender ev = Some s
                  /\ truthy s = true /\ String.eqb s (botUserId env) = false
                  /\ includes (ignoreList env) s = false
                  /\ body ev = None))
  /\ (forall s, getType ev = "m.room.message" -> getSender ev = Some s ->
        truthy s = true -> String.eqb s (botUserId env) = false ->
        includes (ignoreList env) s = false -> body ev = None ->
        run w (onRoomTimeline decodeAddress env ev)
        = [Log Debug ["Processing request from " ++ s]; Uncaught "TypeError"]).
Proof.
  assert (forall s, getType ev = "m.room.message" -> getSender ev = Some s ->
        truthy s = true -> String.eqb s (botUserId env) = false ->
        includes (ignoreList env) s = false -> body ev = None ->
        run w (onRoomTimeline decodeAddress env ev)
        = [Log Debug ["Processing request from " ++ s]; Uncaught "TypeError"])
    as Hrun.
  { intros s Ht Hs Htr Hb Hi Hbody. unfold onRoomTimeline.
    now rewrite Ht, Hs, Htr, Hb, Hi, Hbody. }
  split; [|exact Hrun]. split.
  - intros [e He].
    pose proof (run_expected w decodeAddress env ev) as Hall.
    rewrite Forall_forall in Hall. pose proof (Hall _ He) as Hbody.
    cbn [expected] in Hbody. revert He. unfold onRoomTimeline.
    destruct (String.eqb (getType ev) "m.room.message") eqn:Ht;
      [|now intros []].
    apply String.eqb_eq in Ht.
    destruct (getSender ev) as [s|]; [|now intros []].
    destruct (truthy s) eqn:Hs; [|now intros []].
    destruct (String.eqb s (botUserId env)) eqn:Hb; [now intros []|].
    destruct (includes (ignoreList env) s) eqn:Hi.
    + cbn. intros [H|[]]. discriminate H.
    + intros _. exists s. now repeat split.
  - intros (s & Ht & Hs & Htr & Hb & Hi & Hbody).
    rewrite (Hrun s Ht Hs Htr Hb Hi Hbody).
    exists "TypeError". right. now left.
Qed.

Lemma throws_exactly_without_body_witness :
  run (Sample.world Sample.noBalance Sample.noDrip)
      (onRoomTimeline Sample.decoder Sample.env
         {| getType := "m.room.message";
            getSender := Some "@alice:matrix.org";
            getRoomId := "!faucet:matrix.org";
            body := None |})
  = [Log Debug ["Processing request from " ++ "@alice:matrix.org"];
     Uncaught "TypeError"].
Proof.
  apply (proj2 (throws_exactly_without_body Sample.decoder Sample.env
                  (Sample.world Sample.noBalance Sample.noDrip)
                  {| getType := "m.room.message";
                     getSender := Some "@alice:matrix.org";
                     getRoomId := "!faucet:matrix.org";
                     body := None |}) "@alice:matrix.org");
    reflexivity.
Defined.

End Conformance.

(** ** The commands, case by case *)

Module Commands.

Import JsString JsNumber Bot Lifecycle JsStringFacts JsStringMore BotFacts.

Local Open Scope string_scope.

(** X7.  [!drip] without an address (no second token, or an empty one as
    in a body ending with a space) is only logged, with a warning: there
    is no reply and no request. *)
Theorem drip_without_address_is_skipped
    (decodeAddress : string -> option (list Byte.byte)) (env : Env)
    (w : World) (ev : MatrixEvent) (s b : string) :
  dispatched env ev s b ->
  action b = "!drip" ->
  arg0 b = None \/ arg0 b = Some "" ->
  run w (onRoomTimeline decodeAddress env ev)
  = [Log Debug ["Processing request from " ++ s];
     Log Warn ["Address not provided, skipping"]].
Proof.
  intros Hd Ha H0.
  rewrite (run_dispatched w decodeAddress env ev s b Hd).
  rewrite (dispatch_drip decodeAddress env _ s b Ha).
  unfold drip. now destruct H0 as [-> | ->].
Qed.

Lemma drip_without_address_is_skipped_witness :
  run (Sample.world Sample.noBalance Sample.noDrip)
      (onRoomTimeline Sample.decoder Sample.env
         (Sample.message "@alice:matrix.org" "!drip "))
  = [Log Debug ["Processing request from " ++ "@alice:matrix.org"];
     Log Warn ["Address not provided, skipping"]].
Proof.
  assert (dispatched Sample.env (Sample.message "@alice:matrix.org" "!drip ")
            "@alice:matrix.org" "!drip ") as Hd
    by (repeat split; reflexivity).
  apply (drip_without_address_is_skipped Sample.decoder Sample.env
           (Sample.world Sample.noBalance Sample.noDrip) _ _ _ Hd eq_refl).
  right. reflexivity.
Defined.

(** X8.  A first token that starts with ['!'] and is neither [!balance]
    nor [!drip] is answered with the list of commands, which names the
    configured unit: as it is for [!help], and after "Unknown command - "
    for anything else.  The match is exact, so [!Balance] or [!help!] are
    unknown commands.  No request is made. *)
Theorem help_and_unknown_commands
    (decodeAddress : string -> option (list Byte.byte)) (env : Env)
    (w : World) (ev : MatrixEvent) (s b : string) :
  dispatched env ev s b ->
  startsWith (action b) "!" = true ->
  action b <> "!balance" ->
  action b <> "!drip" ->
  sent (run w (onRoomTimeline decodeAddress env ev))
  = [(getRoomId ev,
      (if String.eqb (action b) "!help" then "" else "Unknown command - ")
      ++ "The following commands are supported:" ++ nl
      ++ "!balance - Get the faucet's balance." ++ nl
      ++ "!drip <Address>[:ParachainId] - Send " ++ NETWORK_UNIT env
      ++ "s to <Address>, if the optional suffix `:SomeParachainId` is given"
      ++ " a teleport will be issued."
      ++ nl ++ "!help - Print this message")]
  /\ requests (run w (onRoomTimeline decodeAddress env ev)) = [].
Proof.
  intros Hd Hs H1 H2.
  rewrite (run_dispatched w decodeAddress env ev s b Hd).
  apply String.eqb_neq in H1. apply String.eqb_neq in H2.
  unfold dispatch. rewrite H1, H2, Hs. cbn [run sent].
  unfold requests. cbn [filter isHttp].
  destruct (String.eqb (action b) "!help"); unfold printHelpMessage;
    rewrite sent_sendMessage;
    (split; [reflexivity | apply requests_sendMessage]).
Qed.

Lemma help_and_unknown_commands_witness :
  sent (run (Sample.world Sample.noBalance Sample.noDrip)
          (onRoomTimeline Sample.decoder Sample.env
             (Sample.message "@alice:matrix.org" "!Balance")))
  = [("!faucet:matrix.org", "Unknown command - " ++ helpText Sample.env)].
Proof.
  assert (dispatched Sample.env (Sample.message "@alice:matrix.org" "!Balance")
            "@alice:matrix.org" "!Balance") as Hd
    by (repeat split; reflexivity).
  apply (help_and_unknown_commands Sample.decoder Sample.env
           (Sample.world Sample.noBalance Sample.noDrip) _ _ _ Hd eq_refl);
    discriminate.
Defined.

(** X9.  When the POST of a [!drip] fails, the room is told the message of
    the error itself, or the generic fallback when that message is empty,
    and the failure is logged at error level. *)
Theorem drip_transport_failure
    (decodeAddress : string -> option (list Byte.byte)) (env : Env)
    (w : World) (ev : MatrixEvent) (s b a0 e : string)
    (bytes : list Byte.byte) :
  dispatched env ev s b ->
  action b = "!drip" ->
  arg0 b = Some a0 ->
  truthy a0 = true ->
  decodeAddress (addressOf a0) = Some bytes ->
  dripReply w (dripRequest env s a0 (arg1 b)) = Rejected e ->
  sent (run w (onRoomTimeline decodeAddress env ev))
  = [(getRoomId ev,
      if truthy e then e
      else "An unexpected error occured, please check the server logs")]
  /\ In (Log Error ["⭕ An error occured when dripping"; e])
        (run w (onRoomTimeline decodeAddress env ev)).
Proof.
  intros Hd Ha H0 Ht Hdec Hr. split.
  - rewrite (sent_drip decodeAddress env w ev s b a0 bytes Hd Ha H0 Ht Hdec).
    now rewrite Hr.
  - rewrite (run_drip decodeAddress env w ev s b a0 bytes Hd Ha H0 Ht Hdec).
    rewrite Hr. cbn. do 4 right. now left.
Qed.

Lemma drip_transport_failure_witness :
  sent (run (Sample.world Sample.noBalance (Rejected "timeout of 10000ms exceeded"))
          (onRoomTimeline Sample.decoder Sample.env
             (Sample.message "@alice:matrix.org" ("!drip " ++ Sample.alice))))
  = [("!faucet:matrix.org", "timeout of 10000ms exceeded")].
Proof.
  assert (dispatched Sample.env
            (Sample.message "@alice:matrix.org" ("!drip " ++ Sample.alice))
            "@alice:matrix.org" ("!drip " ++ Sample.alice)) as Hd
    by (repeat split; reflexivity).
  exact (proj1
    (drip_transport_failure Sample.decoder Sample.env
       (Sample.world Sample.noBalance (Rejected "timeout of 10000ms exceeded"))
       _ _ _ Sample.alice "timeout of 10000ms exceeded" []
       Hd eq_refl eq_refl eq_refl eq_refl eq_refl)).
Defined.

(** X10.  When the GET of a [!balance] fails, the room is told the generic
    message, whatever the error, and the error is logged. *)
Theorem balance_transport_failure
    (decodeAddress : string -> option (list Byte.byte)) (env : Env)
    (w : World) (ev : MatrixEvent) (s b e : string) :
  dispatched env ev s b ->
  action b = "!balance" ->
  balanceReply w = Rejected e ->
  sent (run w (onRoomTimeline decodeAddress env ev))
  = [(getRoomId ev, "An error occured, please check the server logs.")]
  /\ In (Log Error ["⭕ An error occured when checking the balance"; e])
        (run w (onRoomTimeline decodeAddress env ev)).
Proof.
  intros Hd Ha Hr.
  rewrite (run_balance decodeAddress env w ev s b Hd Ha), Hr. split.
  - cbn [sent]. now rewrite sent_onBalance.
  - cbn. do 3 right. now left.
Qed.

Lemma balance_transport_failure_witness :
  sent (run (Sample.world (Rejected "connect ECONNREFUSED") Sample.noDrip)
          (onRoomTimeline Sample.decoder Sample.env
             (Sample.message "@alice:matrix.org" "!balance now")))
  = [("!faucet:matrix.org", "An error occured, please check the server logs.")].
Proof.
  assert (dispatched Sample.env
            (Sample.message "@alice:matrix.org" "!balance now")
            "@alice:matrix.org" "!balance now") as Hd
    by (repeat split; reflexivity).
  exact (proj1
    (balance_transport_failure Sample.decoder Sample.env
       (Sample.world (Rejected "connect ECONNREFUSED") Sample.noDrip)
       _ _ _ "connect ECONNREFUSED" Hd eq_refl eq_refl)).
Defined.

(** X11.  When the guard takes the answer to a drip for a success, the
    reply names the sender, the amount that was asked for (not one taken
    from the answer), the unit and the hash of the answer. *)
Theorem drip_confirmation
    (decodeAddress : string -> option (list Byte.byte)) (env : Env)
    (w : World) (ev : MatrixEvent) (s b a0 : string)
    (bytes : list Byte.byte) (data : DripResponse) :
  dispatched env ev s b ->
  action b = "!drip" ->
  arg0 b = Some a0 ->
  truthy a0 = true ->
  decodeAddress (addressOf a0) = Some bytes ->
  dripReply w (dripRequest env s a0 (arg1 b)) = Resolved data ->
  isDripSuccessResponse data = true ->
  sent (run w (onRoomTimeline decodeAddress env ev))
  = [(getRoomId ev,
      "Sent " ++ s ++ " "
      ++ toString (amount (dripRequest env s a0 (arg1 b)))
      ++ " " ++ NETWORK_UNIT env ++ "s. Extrinsic hash: "
      ++ fieldText (hash data))].
Proof.
  intros Hd Ha H0 Ht Hdec Hr Hg.
  rewrite (sent_drip decodeAddress env w ev s b a0 bytes Hd Ha H0 Ht Hdec).
  rewrite Hr. unfold dripMessage. now rewrite Hg.
Qed.

Lemma drip_confirmation_witness :
  sent (run (Sample.world Sample.noBalance
               (Resolved {| hash := Str "0x5eed"; error := Absent |}))
          (onRoomTimeline Sample.decoder Sample.env
             (Sample.message "@alice:matrix.org"
                ("!drip " ++ Sample.alice ++ " 1000"))))
  = [("!faucet:matrix.org",
      "Sent @alice:matrix.org 0.5 UNITs. Extrinsic hash: 0x5eed")].
Proof.
  assert (dispatched Sample.env
            (Sample.message "@alice:matrix.org"
               ("!drip " ++ Sample.alice ++ " 1000"))
            "@alice:matrix.org" ("!drip " ++ Sample.alice ++ " 1000")) as Hd
    by (repeat split; reflexivity).
  exact (drip_confirmation Sample.decoder Sample.env
           (Sample.world Sample.noBalance
              (Resolved {| hash := Str "0x5eed"; error := Absent |}))
           _ _ _ Sample.alice [] _
           Hd eq_refl eq_refl eq_refl eq_refl eq_refl eq_refl).
Defined.

(** X12.  Of a first argument with two colons or more, only the first two
    fields are used: the address and the parachain id.  What follows the
    second colon is dropped. *)
Theorem only_two_fields_of_the_address
    (decodeAddress : string -> option (list Byte.byte)) (env : Env)
    (w : World) (ev : MatrixEvent) (s b a0 addr pid rest : string)
    (bytes : list Byte.byte) :
  dispatched env ev s b ->
  action b = "!drip" ->
  arg0 b = Some a0 ->
  lacks ":" addr = true ->
  lacks ":" pid = true ->
  trim a0 = addr ++ ":" ++ pid ++ ":" ++ rest ->
  decodeAddress addr = Some bytes ->
  requests (run w (onRoomTimeline decodeAddress env ev))
  = [HttpPost (baseURL env) "/bot-endpoint"
       {| address := addr;
          amount := dripAmountFor env s (arg1 b);
          parachain_id := pid;
          sender := s |}].
Proof.
  intros Hd Ha H0 Hl Hp Htrim Hdec.
  assert (truthy a0 = true) as Ht.
  { destruct a0; [|reflexivity]. destruct addr; discriminate Htrim. }
  assert (split ":" (trim a0) = addr :: pid :: split ":" rest) as Hsplit.
  { rewrite Htrim. exact (split_first_two ":" addr pid rest Hl Hp). }
  assert (addressOf a0 = addr) as Haddr
    by (unfold addressOf; now rewrite Hsplit).
  assert (parachainIdOf a0 = pid) as Hpid.
  { unfold parachainIdOf. rewrite Hsplit. cbn [nth_error]. now destruct pid. }
  rewrite <- Haddr in Hdec.
  rewrite (requests_drip decodeAddress env w ev s b a0 bytes Hd Ha H0 Ht Hdec).
  unfold dripRequest. now rewrite Haddr, Hpid.
Qed.

Lemma only_two_fields_of_the_address_witness :
  requests (run (Sample.world Sample.noBalance Sample.noDrip)
              (onRoomTimeline Sample.decoder Sample.env
                 (Sample.message "@alice:matrix.org"
                    ("!drip " ++ Sample.alice ++ ":2000:7:x"))))
  = [HttpPost "http://localhost:5555" "/bot-endpoint"
       {| address := Sample.alice;
          amount := DRIP_AMOUNT Sample.env;
          parachain_id := "2000";
          sender := "@alice:matrix.org" |}].
Proof.
  assert (dispatched Sample.env
            (Sample.message "@alice:matrix.org"
               ("!drip " ++ Sample.alice ++ ":2000:7:x"))
            "@alice:matrix.org" ("!drip " ++ Sample.alice ++ ":2000:7:x"))
    as Hd by (repeat split; reflexivity).
  exact (only_two_fields_of_the_address Sample.decoder Sample.env
           (Sample.world Sample.noBalance Sample.noDrip) _ _ _
           (Sample.alice ++ ":2000:7:x") Sample.alice "2000" "7:x" []
           Hd eq_refl eq_refl eq_refl eq_refl eq_refl eq_refl).
Defined.

Lemma tokens_of_three (t0 t1 t2 : string) :
  lacks " " t0 = true -> lacks " " t1 = true -> lacks " " t2 = true ->
  split " " (t0 ++ " " ++ t1 ++ " " ++ t2) = [t0; t1; t2].
Proof.
  intros H0 H1 H2.
  change (t0 ++ " " ++ t1 ++ " " ++ t2)
    with (t0 ++ String " " (t1 ++ String " " t2)).
  now rewrite (split_app _ _ _ H0), (split_app _ _ _ H1), (split_lacks _ _ H2).
Qed.

Lemma tokens_of_more (t0 t1 t2 more : string) :
  lacks " " t0 = true -> lacks " " t1 = true -> lacks " " t2 = true ->
  split " " (t0 ++ " " ++ t1 ++ " " ++ t2 ++ " " ++ more)
  = t0 :: t1 :: t2 :: split " " more.
Proof.
  intros H0 H1 H2.
  change (t0 ++ " " ++ t1 ++ " " ++ t2 ++ " " ++ more)
    with (t0 ++ String " " (t1 ++ String " " (t2 ++ String " " more))).
  now rewrite (split_app _ _ _ H0), (split_app _ _ _ H1), (split_app _ _ _ H2).
Qed.

(** X13.  Only the first three tokens of a body count: what follows a
    third token changes nothing to what the handler does. *)
Theorem tokens_after_the_third_are_ignored
    (decodeAddress : string -> option (list Byte.byte)) (env : Env)
    (ty room : string) (from : option string) (t0 t1 t2 more : string) :
  lacks " " t0 = true -> lacks " " t1 = true -> lacks " " t2 = true ->
  onRoomTimeline decodeAddress env
    {| getType := ty; getSender := from; getRoomId := room;
       body := Some (t0 ++ " " ++ t1 ++ " " ++ t2 ++ " " ++ more) |}
  = onRoomTimeline decodeAddress env
      {| getType := ty; getSender := from; getRoomId := room;
         body := Some (t0 ++ " " ++ t1 ++ " " ++ t2) |}.
Proof.
  intros H0 H1 H2. unfold onRoomTimeline. cbn [getType getSender getRoomId body].
  unfold dispatch, action, arg0, arg1.
  now rewrite (tokens_of_more t0 t1 t2 more H0 H1 H2),
              (tokens_of_three t0 t1 t2 H0 H1 H2).
Qed.

Lemma tokens_after_the_third_are_ignored_witness :
  onRoomTimeline Sample.decoder Sample.env
    (Sample.message "@bob:matrix.parity.io"
       ("!drip" ++ " " ++ Sample.alice ++ " " ++ "7" ++ " " ++ "please now"))
  = onRoomTimeline Sample.decoder Sample.env
      (Sample.message "@bob:matrix.parity.io"
         ("!drip" ++ " " ++ Sample.alice ++ " " ++ "7")).
Proof.
  exact (tokens_after_the_third_are_ignored Sample.decoder Sample.env
           "m.room.message" "!faucet:matrix.org"
           (Some "@bob:matrix.parity.io") "!drip" Sample.alice "7"
           "please now" eq_refl eq_refl eq_refl).
Defined.

(** X14.  The override of the amount is open to the senders whose
    identifier is some text followed by [:matrix.parity.io], and to no one
    else: a domain that merely holds the suffix somewhere, or goes on
    after it, gets the default amount. *)
Theorem override_is_for_the_suffix_only (env : Env) (s a : string) :
  truthy a = true ->
  ((exists pre, s = pre ++ ":matrix.parity.io") ->
   dripAmountFor env s (Some a) = ofString a)
  /\ ((forall pre, s <> pre ++ ":matrix.parity.io") ->
      dripAmountFor env s (Some a) = DRIP_AMOUNT env).
Proof.
  intros Ha. unfold dripAmountFor, trustedSuffix. rewrite Ha, andb_true_r.
  split.
  - intros H. apply endsWith_iff in H. now rewrite H.
  - intros H. destruct (endsWith s ":matrix.parity.io") eqn:He; [|reflexivity].
    apply endsWith_iff in He. destruct He as [pre Hpre].
    now destruct (H pre).
Qed.

Lemma override_is_for_the_suffix_only_witness :
  (exists pre, "@bob:matrix.parity.io" = pre ++ ":matrix.parity.io")
  /\ dripAmountFor Sample.env "@bob:matrix.parity.io" (Some "7") = ofString "7".
Proof.
  assert (exists pre, "@bob:matrix.parity.io" = pre ++ ":matrix.parity.io")
    as H by (exists "@bob"; reflexivity).
  split; [exact H|].
  exact (proj1 (override_is_for_the_suffix_only Sample.env
                  "@bob:matrix.parity.io" "7" eq_refl) H).
Defined.

(** X21.  A message that passed the filters gets exactly one reply when its
    body starts with ['!'], except for a [!drip] without address, which
    gets none; a body that does not start with ['!'] gets none either. *)
Theorem commands_get_exactly_one_reply
    (decodeAddress : string -> option (list Byte.byte)) (env : Env)
    (w : World) (ev : MatrixEvent) (s b : string) :
  dispatched env ev s b ->
  List.length (sent (run w (onRoomTimeline decodeAddress env ev)))
  = if startsWith b "!"
       && negb (String.eqb (action b) "!drip"
                && negb match arg0 b with
                        | Some a => truthy a
                        | None => false
                        end)
    then 1 else 0.
Proof.
  intros Hd.
  rewrite (run_dispatched w decodeAddress env ev s b Hd). cbn [sent].
  rewrite <- (startsWith_first_token b). unfold dispatch, action.
  destruct (String.eqb (hd "" (split " " b)) "!balance") eqn:H1.
  { apply String.eqb_eq in H1. rewrite H1. cbn [run sent].
    now rewrite sent_onBalance. }
  destruct (String.eqb (hd "" (split " " b)) "!drip") eqn:H2.
  { apply String.eqb_eq in H2. rewrite H2.
    change (startsWith "!drip" "!") with true. cbn [andb].
    unfold drip. destruct (arg0 b) as [a0|]; [|reflexivity].
    destruct (truthy a0); [|reflexivity].
    cbn [negb run sent]. destruct (decodeAddress (addressOf a0)).
    - cbn [run sent]. now rewrite sent_onDrip.
    - now rewrite sent_sendMessage. }
  destruct (String.eqb (hd "" (split " " b)) "!help") eqn:H3.
  { apply String.eqb_eq in H3. rewrite H3. unfold printHelpMessage.
    now rewrite sent_sendMessage. }
  cbn [andb negb]. rewrite andb_true_r.
  destruct (startsWith (hd "" (split " " b)) "!"); [|reflexivity].
  unfold printHelpMessage. now rewrite sent_sendMessage.
Qed.

Lemma commands_get_exactly_one_reply_witness :
  List.length
    (sent (run (Sample.world Sample.noBalance Sample.noDrip)
             (onRoomTimeline Sample.decoder Sample.env
                (Sample.message "@alice:matrix.org" "!drip 5ABC")))) = 1
  /\ List.length
       (sent (run (Sample.world Sample.noBalance Sample.noDrip)
                (onRoomTimeline Sample.decoder Sample.env
                   (Sample.message "@alice:matrix.org" "!drip")))) = 0.
Proof.
  split.
  - apply (commands_get_exactly_one_reply Sample.decoder Sample.env
             (Sample.world Sample.noBalance Sample.noDrip)
             (Sample.message "@alice:matrix.org" "!drip 5ABC")
             "@alice:matrix.org" "!drip 5ABC").
    repeat split; reflexivity.
  - apply (commands_get_exactly_one_reply Sample.decoder Sample.env
             (Sample.world Sample.noBalance Sample.noDrip)
             (Sample.message "@alice:matrix.org" "!drip")
             "@alice:matrix.org" "!drip").
    repeat split; reflexivity.
Defined.

End Commands.

(** ** Start-up, the ignore list and room membership *)

Module LifecycleFacts.

Import JsString JsNumber Bot Lifecycle JsStringFacts JsStringMore BotFacts
  Conformance.

Local Open Scope string_scope.

(** The fields of a string that lacks a character lack it too. *)
Lemma split_keeps_lacks (c sep : ascii) (s : string) :
  lacks c s = true -> Forall (fun x => lacks c x = true) (split sep s).
Proof.
  induction s as [|d r IH]; simpl; intros H.
  - now repeat constructor.
  - apply andb_prop in H. destruct H as [Hd Hr]. specialize (IH Hr).
    destruct (Ascii.eqb d sep).
    + now constructor.
    + destruct (split sep r) as [|h t].
      * repeat constructor. simpl. now rewrite Hd.
      * inversion IH as [|? ? Hh Ht]; subst. constructor; [|exact Ht].
        simpl. now rewrite Hd, Hh.
Qed.

Lemma map_replace_absent (c : ascii) (l : list string) :
  Forall (fun x => lacks c x = true) l ->
  map (fun item => replace (String c EmptyString) "" item) l = l.
Proof.
  induction 1 as [|x l Hx _ IH]; simpl; [reflexivity|].
  now rewrite (replace_absent c x Hx), IH.
Qed.

(** X15.  The ignore list has one entry more than the setting has commas.
    It is therefore never empty, and the start-up always shows it: a header
    with the number of entries, then each entry between quotes.  With the
    default setting it announces one entry, the empty one. *)
Theorem startup_always_shows_the_ignore_list (env : Env) :
  List.length (ignoreList env) = S (occurrences "," (FAUCET_IGNORE_LIST env))
  /\ startupLog env
     = Log Info ["Ignore list: ("
                 ++ digitsOf (Z.of_nat
                      (S (occurrences "," (FAUCET_IGNORE_LIST env))))
                 ++ " entries)"]
       :: map (fun account => Log Info [" '" ++ account ++ "'"])
            (ignoreList env)
  /\ startupLog defaults
     = [Log Info ["Ignore list: (1 entries)"]; Log Info [" ''"]].
Proof.
  assert (List.length (ignoreList env)
          = S (occurrences "," (FAUCET_IGNORE_LIST env))) as Hl.
  { unfold ignoreList, parseIgnoreList.
    now rewrite length_map, split_length. }
  split; [exact Hl|]. split; [|reflexivity].
  unfold startupLog. now rewrite Hl.
Qed.

(** X16.  For a setting without double quotes, the ignore list is the list
    of the comma-separated fields as they are written, spaces included, and
    joining its entries with commas gives the setting back. *)
Theorem unquoted_ignore_list_is_the_fields (raw : string) :
  lacks "034" raw = true ->
  parseIgnoreList raw = split "," raw
  /\ String.concat "," (parseIgnoreList raw) = raw.
Proof.
  intros H.
  assert (parseIgnoreList raw = split "," raw) as Hp.
  { unfold parseIgnoreList, quote.
    apply map_replace_absent. now apply split_keeps_lacks. }
  split; [exact Hp|]. rewrite Hp. apply concat_split.
Qed.

Lemma unquoted_ignore_list_is_the_fields_witness :
  parseIgnoreList "@a:matrix.org, @b:matrix.org"
  = ["@a:matrix.org"; " @b:matrix.org"]
  /\ String.concat "," (parseIgnoreList "@a:matrix.org, @b:matrix.org")
     = "@a:matrix.org, @b:matrix.org".
Proof.
  exact (unquoted_ignore_list_is_the_fields "@a:matrix.org, @b:matrix.org"
           eq_refl).
Defined.

Section Warnings.

Variable w : World.
Variable decodeAddress : string -> option (list Byte.byte).
Variable env : Env.

Lemma mild_reply (room msg : string) (k : proc) :
  Forall mild (run w k) -> Forall mild (run w (sendMessage room msg k)).
Proof. apply Forall_sendMessage; [intros a; exact I | exact I]. Qed.

Lemma mild_dispatch (room s b : string) :
  Forall mild (run w (dispatch decodeAddress env room s b)).
Proof.
  unfold dispatch.
  destruct (String.eqb (action b) "!balance").
  { simpl. constructor; [exact I|].
    destruct (balanceReply w); unfold onBalance; apply mild_reply;
      repeat constructor. }
  destruct (String.eqb (action b) "!drip").
  { unfold drip. destruct (arg0 b) as [a0|]; [|repeat constructor].
    destruct (truthy a0); [|repeat constructor].
    cbn [negb run]. constructor; [exact I|].
    destruct (decodeAddress (addressOf a0)).
    - cbn [run]. constructor; [exact I|].
      destruct (dripReply w _); unfold onDrip; apply mild_reply;
        repeat constructor.
    - apply mild_reply. constructor. }
  destruct (String.eqb (action b) "!help");
    [unfold printHelpMessage; apply mild_reply; constructor|].
  destruct (startsWith (action b) "!");
    [unfold printHelpMessage; apply mild_reply; constructor|].
  constructor.
Qed.

End Warnings.

(** X17.  With the default, empty setting the ignore list holds the empty
    identifier only, which the filter on the sender has already dropped:
    no sender is ever reported as ignored, and the only warning a run can
    hold is the one about a missing address. *)
Theorem empty_setting_ignores_nobody
    (decodeAddress : string -> option (list Byte.byte)) (env : Env)
    (w : World) (ev : MatrixEvent) (args : list string) :
  FAUCET_IGNORE_LIST env = "" ->
  In (Log Warn args) (run w (onRoomTimeline decodeAddress env ev)) ->
  args = ["Address not provided, skipping"].
Proof.
  intros Hraw Hin.
  assert (Forall mild (run w (onRoomTimeline decodeAddress env ev))) as Hall.
  { unfold onRoomTimeline.
    destruct (negb (String.eqb (getType ev) "m.room.message")); [constructor|].
    destruct (getSender ev) as [s|]; [|constructor].
    destruct (truthy s) eqn:Hs; [|constructor].
    destruct (String.eqb s (botUserId env)); [constructor|].
    cbn [negb orb].
    assert (includes (ignoreList env) s = false) as ->.
    { unfold ignoreList. rewrite Hraw. now destruct s. }
    cbn [run]. constructor; [exact I|].
    destruct (body ev) as [b|]; [apply mild_dispatch | repeat constructor]. }
  rewrite Forall_forall in Hall. exact (Hall _ Hin).
Qed.

Lemma empty_setting_ignores_nobody_witness :
  FAUCET_IGNORE_LIST defaults = ""
  /\ In (Log Warn ["Address not provided, skipping"])
        (run (Sample.world Sample.noBalance Sample.noDrip)
           (onRoomTimeline Sample.decoder defaults
              (Sample.message "@alice:matrix.org" "!drip")))
  /\ ["Address not provided, skipping"] = ["Address not provided, skipping"].
Proof.
  assert (In (Log Warn ["Address not provided, skipping"])
            (run (Sample.world Sample.noBalance Sample.noDrip)
               (onRoomTimeline Sample.decoder defaults
                  (Sample.message "@alice:matrix.org" "!drip")))) as Hin
    by (right; left; reflexivity).
  split; [reflexivity|]. split; [exact Hin|].
  exact (empty_setting_ignores_nobody Sample.decoder defaults
           (Sample.world Sample.noBalance Sample.noDrip)
           (Sample.message "@alice:matrix.org" "!drip") _ eq_refl Hin).
Defined.

(** X18.  The bot joins a room only on an invitation addressed to itself,
    and then joins the room of the invitation, once: a join that fails is
    logged and not tried again. *)
Theorem joins_only_when_invited (env : Env)
    (joinReply : string -> option string) (member : RoomMember)
    (room : string) :
  In (JoinRoom room) (onMembership env joinReply member) ->
  membership member = "invite"
  /\ userId member = botUserId env
  /\ room = roomId member
  /\ onMembership env joinReply member
     = [JoinRoom (roomId member);
        match joinReply (roomId member) with
        | None => JoinLog Info ["Auto-joined " ++ roomId member ++ "."]
        | Some e => JoinLog Error ["⭕ Auto-join error"; e]
        end].
Proof.
  unfold onMembership.
  destruct (String.eqb (membership member) "invite") eqn:Hm; [|now intros []].
  destruct (String.eqb (userId member) (botUserId env)) eqn:Hu;
    [|now intros []].
  apply String.eqb_eq in Hm. apply String.eqb_eq in Hu. cbn [andb].
  intros Hin. repeat split; try assumption.
  - destruct Hin as [H|Hin]; [now injection H|].
    destruct (joinReply (roomId member)); destruct Hin as [H|[]];
      discriminate H.
  - now destruct (joinReply (roomId member)).
Qed.

Lemma joins_only_when_invited_witness :
  onMembership Sample.env (fun _ => Some "M_FORBIDDEN")
    {| membership := "invite"; userId := "@faucet:matrix.org";
       roomId := "!lobby:matrix.org" |}
  = [JoinRoom "!lobby:matrix.org";
     JoinLog Error ["⭕ Auto-join error"; "M_FORBIDDEN"]].
Proof.
  apply (joins_only_when_invited Sample.env (fun _ => Some "M_FORBIDDEN")
           {| membership := "invite"; userId := "@faucet:matrix.org";
              roomId := "!lobby:matrix.org" |} "!lobby:matrix.org").
  left. reflexivity.
Defined.

End LifecycleFacts.

(** ** Numeric coercion of decimal writings *)

Module JsNumberMore.

Import JsString JsNumber Lifecycle JsStringMore.
Import Decimal.

Local Open Scope string_scope.

Ltac eval_digit :=
  match goal with
  | |- context [digitVal 10 ?c] =>
      let v := eval vm_compute in (digitVal 10 c) in
      change (digitVal 10 c) with v
  end.

(** Reading the digits [d] after an accumulator [acc]. *)
Lemma decimalDigits_uint (d : uint) (acc : N) (cnt : Z) :
  decimalDigits (NilEmpty.string_of_uint d) (Z.of_N acc) cnt
  = (Z.of_N (DecimalPos.Unsigned.of_lu (rev d)
             + acc * 10 ^ DecimalPos.Unsigned.usize d)%N,
     (cnt + Z.of_N (DecimalPos.Unsigned.usize d))%Z,
     EmptyString).
Proof.
  revert acc cnt.
  induction d as [|d IH|d IH|d IH|d IH|d IH|d IH|d IH|d IH|d IH|d IH];
    intros acc cnt.
  1: { cbn [NilEmpty.string_of_uint decimalDigits rev revapp
            DecimalPos.Unsigned.of_lu DecimalPos.Unsigned.usize].
       apply (f_equal2 (fun x y => (x, y, EmptyString))); [|lia].
       f_equal. rewrite N.pow_0_r. lia. }
  all: cbn [NilEmpty.string_of_uint decimalDigits]; eval_digit;
    cbv beta iota;
    match goal with
    | |- decimalDigits _ (10 * Z.of_N ?a + ?k)%Z _ = _ =>
        replace (10 * Z.of_N a + k)%Z with (Z.of_N (10 * a + Z.to_N k))
          by lia
    end;
    rewrite IH; set (R := DecimalPos.Unsigned.of_lu (rev d));
    unfold rev; cbn [revapp];
    rewrite DecimalPos.Unsigned.of_lu_revapp;
    cbn [DecimalPos.Unsigned.of_lu DecimalPos.Unsigned.usize];
    rewrite N.pow_succ_r'; fold R;
    apply (f_equal2 (fun x y => (x, y, EmptyString)));
      [f_equal; cbn [Z.to_N]; ring | lia].
Qed.

Lemma digits_solid (d : uint) : solid (NilEmpty.string_of_uint d) = true.
Proof. induction d; simpl; [reflexivity | assumption ..]. Qed.

Lemma digits_not_radix_literal (d : uint) :
  nonDecimalLiteral (NilEmpty.string_of_uint d) = None.
Proof.
  destruct d as [|d|d|d|d|d|d|d|d|d|d]; try reflexivity;
    destruct d as [|d|d|d|d|d|d|d|d|d|d]; try reflexivity;
    destruct d; reflexivity.
Qed.

Lemma usize_positive (d : uint) :
  d <> Nil -> (0 < DecimalPos.Unsigned.usize d)%N.
Proof. destruct d; [now intros [] | intros _; simpl; lia ..]. Qed.

Lemma iter_pos_keeps {A : Type} (P : A -> Prop) (f : A -> A) :
  (forall x, P x -> P (f x)) ->
  forall n x, P x -> P (iter_pos f n x).
Proof.
  intros Hf. induction n as [n IH|n IH|]; intros x Hx; simpl; auto.
Qed.

Lemma shr_1_nonneg (mrs : shr_record) :
  (0 <= shr_m mrs)%Z -> (0 <= shr_m (shr_1 mrs))%Z.
Proof.
  destruct mrs as [m r s]. simpl.
  destruct m as [|p|p]; [| destruct p | destruct p]; simpl; lia.
Qed.

Lemma shr_fexp_nonneg (m e : Z) (l : location) :
  (0 <= m)%Z -> (0 <= shr_m (fst (shr_fexp prec emax m e l)))%Z.
Proof.
  intros Hm. unfold shr_fexp, shr.
  assert (0 <= shr_m (shr_record_of_loc m l))%Z as H0
    by (destruct l as [|[]]; exact Hm).
  destruct (_ - e)%Z; try exact H0. cbn [fst].
  now apply iter_pos_keeps; [exact shr_1_nonneg|].
Qed.

Lemma round_nearest_even_nonneg (m : Z) (l : location) :
  (0 <= m)%Z -> (0 <= round_nearest_even m l)%Z.
Proof.
  intros Hm. unfold round_nearest_even.
  destruct l as [|[]]; try lia. destruct (Z.even m); lia.
Qed.

(** Rounding a quotient of positive integers never gives [NaN]. *)
Lemma ofRatio_not_NaN (neg : bool) (p q : positive) : ofRatio neg p q <> NaN.
Proof.
  unfold ofRatio, SFdiv, SFdiv_core_binary.
  set (s := (_ - _ - _)%Z).
  set (m' := match s with Z.pos _ => _ | Z0 => _ | Z.neg _ => _ end).
  assert (0 <= m')%Z as Hm'.
  { subst m'. destruct s; try lia. apply Z.shiftl_nonneg. lia. }
  pose proof (Z.div_eucl_eq m' (Z.pos q)) as Hq.
  pose proof (Z.mod_pos_bound m' (Z.pos q)) as Hr.
  unfold Z.modulo in Hr.
  assert (0 <= fst (Z.div_eucl m' (Z.pos q)))%Z as Hquot.
  { change (fst (Z.div_eucl m' (Z.pos q))) with (m' / Z.pos q)%Z.
    apply Z.div_pos; lia. }
  destruct (Z.div_eucl m' (Z.pos q)) as [qu r]. cbn [fst] in Hquot.
  unfold binary_round_aux.
  pose proof (shr_fexp_nonneg qu
    (Z.min (fexp prec emax
              (Zdigits2 (Z.pos p) + 0 - (Zdigits2 (Z.pos q) + 0))) (0 - 0))
    (new_location (Z.pos q) r) Hquot) as H1.
  destruct (shr_fexp prec emax qu _ _) as [mrs e1]. cbn [fst] in H1.
  pose proof (shr_fexp_nonneg _ e1 loc_Exact
    (round_nearest_even_nonneg _ (loc_of_shr_record mrs) H1)) as H2.
  destruct (shr_fexp prec emax _ e1 loc_Exact) as [mrs' e2]. cbn [fst] in H2.
  destruct (shr_m mrs'); try discriminate; [|lia].
  destruct (_ <=? _)%Z; discriminate.
Qed.

Lemma ofDecimal_not_NaN (neg : bool) (m e : Z) : ofDecimal neg m e <> NaN.
Proof.
  unfold ofDecimal. destruct m; try discriminate.
  destruct (0 <=? _)%Z; apply ofRatio_not_NaN.
Qed.

Lemma ofString_uint (d : uint) :
  d <> Nil ->
  ofString (NilEmpty.string_of_uint d)
  = ofDecimal false (Z.of_N (N.of_uint d)) 0.
Proof.
  intros Hd. unfold ofString. rewrite (trim_solid _ (digits_solid d)).
  assert (numericLiteral (NilEmpty.string_of_uint d)
          = Some (ofDecimal false (Z.of_N (N.of_uint d)) 0)) as Hn.
  { unfold numericLiteral. rewrite digits_not_radix_literal.
    assert (unsignedDecimalLiteral false (NilEmpty.string_of_uint d)
            = Some (ofDecimal false (Z.of_N (N.of_uint d)) 0)) as Hu.
    { unfold unsignedDecimalLiteral.
      assert (String.eqb (NilEmpty.string_of_uint d) "Infinity" = false)
        as -> by (destruct d; reflexivity).
      pose proof (decimalDigits_uint d 0 0) as Hdd.
      change (Z.of_N 0) with 0%Z in Hdd. rewrite Hdd. cbv beta iota.
      pose proof (usize_positive d Hd) as Hpos.
      assert ((0 <? 0 + Z.of_N (DecimalPos.Unsigned.usize d) + 0)%Z = true)
        as -> by (apply Z.ltb_lt; lia).
      cbn [exponentPart]. unfold N.of_uint.
      rewrite DecimalPos.Unsigned.of_uint_alt.
      now rewrite N.mul_0_l, N.add_0_r. }
    destruct d; exact Hu. }
  revert Hn. destruct (NilEmpty.string_of_uint d) eqn:Es.
  - destruct d; [now destruct Hd | discriminate Es ..].
  - now intros ->.
Qed.

(** X19.  [Number] reads a non-empty string of decimal digits, leading
    zeros included, as the integer it writes, rounded to the nearest
    binary64: it is never taken for an octal literal and never [NaN]. *)
Theorem number_of_decimal_digits (d : uint) :
  d <> Nil ->
  ofString (NilEmpty.string_of_uint d)
  = ofDecimal false (Z.of_N (N.of_uint d)) 0
  /\ ofString (NilEmpty.string_of_uint d) <> NaN.
Proof.
  intros Hd. rewrite (ofString_uint d Hd). split; [reflexivity|].
  apply ofDecimal_not_NaN.
Qed.

Lemma number_of_decimal_digits_witness :
  ofString "0750" = ofDecimal false 750 0 /\ ofString "0750" <> NaN.
Proof.
  apply (number_of_decimal_digits (D0 (D7 (D5 (D0 Nil))))). discriminate.
Defined.

(** X20.  The decimal writing of a natural number is coerced back to that
    number, rounded to the nearest binary64. *)
Theorem number_of_natural_writing (n : N) :
  ofString (digitsOf (Z.of_N n)) = ofDecimal false (Z.of_N n) 0.
Proof.
  unfold digitsOf. rewrite N2Z.id.
  assert (N.to_uint n <> Nil) as Hnil.
  { destruct n; [discriminate | apply DecimalPos.Unsigned.to_uint_nonnil]. }
  assert (NilZero.string_of_uint (N.to_uint n)
          = NilEmpty.string_of_uint (N.to_uint n)) as ->.
  { unfold NilZero.string_of_uint. destruct (N.to_uint n); try reflexivity.
    now destruct Hnil. }
  rewrite (ofString_uint _ Hnil).
  now rewrite DecimalN.Unsigned.of_to.
Qed.

End JsNumberMore.
